(** * CargarTemperatura: the telemetry acquisition-and-delivery pipeline

    A shallow embedding of the Python sources

      - module/temper_reader.py   (get_device_metadata, get_medicion)
      - module/location_info.py   (get_location_data)
      - module/system_info.py     (get_system_info)
      - module/db_connection.py   (load_credentials, get_db_connection)
      - module/json_builder.py    (insert_into_db)
      - main.py                   (main)

    Python exceptions are values of [exn]; a computation that may raise has
    type [result A]; a computation that also talks to the outside world (USB
    devices, files, the database, the logger) lives in the trace monad [M],
    which records every external interaction in the order it happens.
    Python floats are IEEE-754 binary64 numbers, modelled by [spec_float].
    What the sources print on the console is left out. *)

From Stdlib Require Import ZArith Lia String Ascii List HexString DecimalString.
From Stdlib Require Import Floats.SpecFloat.
From stdpp Require Import gmap strings list.

Local Open Scope Z_scope.

(** ** Python floats *)

Module pyfloat.

Definition prec : Z := 53.
Definition emax : Z := 1024.

Definition float : Type := spec_float.

(** [a + b] on floats. *)
Definition add (a b : float) : float := SFadd prec emax a b.

(** [float(n)] for an integer small enough not to overflow. *)
Definition of_Z (n : Z) : float := binary_normalize prec emax n 0 false.

(** The float nearest to the decimal [(-1)^s * k / 10^ndigits]: what
    reading that decimal back as a float gives. *)
Definition decimal (s : bool) (k : Z) (ndigits : nat) : float :=
  match k with
  | Zpos p => SFdiv prec emax (S754_finite s p 0)
                (S754_finite false (Z.to_pos (Z.pow 10 (Z.of_nat ndigits))) 0)
  | _ => S754_zero s
  end.

(** The float a decimal literal [n / 10^ndigits] of the source denotes. *)
Definition of_decimal (n : Z) (ndigits : nat) : float :=
  decimal (n <? 0) (Z.abs n) ndigits.

Definition is_finite (x : float) : bool :=
  match x with
  | S754_zero _ | S754_finite _ _ _ => true
  | _ => false
  end.

(** The nearest integer to [n / d] for [0 < d], ties going to the even
    neighbour. *)
Definition round_half_even (n d : Z) : Z :=
  let q := n / d in
  let r := n mod d in
  match (2 * r ?= d) with
  | Lt => q
  | Gt => q + 1
  | Eq => if Z.even q then q else q + 1
  end.

(** The magnitude of a finite non-zero float as a fraction. *)
Definition magnitude (m : positive) (e : Z) : Z * Z :=
  match e with
  | Zneg p => (Zpos m, Z.pow 2 (Zpos p))
  | _ => (Zpos m * Z.pow 2 e, 1)
  end.

(** [round(x, ndigits)] for a float [x] and a small [ndigits >= 0]:
    CPython converts [x] to the decimal string with [ndigits] digits after
    the point that is nearest to the exact value of [x] (ties to even), and
    converts that string back to the nearest float.  Infinities and NaN
    round to themselves; the sign of a result that rounds to zero is
    kept. *)
Definition round (x : float) (ndigits : nat) : float :=
  match x with
  | S754_finite s m e =>
      let '(n, d) := magnitude m e in
      decimal s (round_half_even (n * Z.pow 10 (Z.of_nat ndigits)) d) ndigits
  | _ => x
  end.

End pyfloat.

(** ** Exceptions and results *)

(** The exception classes the sources raise, catch or let through.  Every one
    of them derives from Python's [Exception]. *)
Inductive exn : Type :=
  | AttributeError
  | FileNotFoundError (msg : string)
  | JSONDecodeError
  | KeyError (msg : string)
  | ValueError (msg : string)
  | TypeError
  | OverflowError
  | MariadbError (msg : string)      (* mariadb.Error and its subclasses *)
  | USBError (msg : string)          (* usb.core.USBError *)
  | OtherError (msg : string).       (* any other subclass of Exception *)

Definition is_AttributeError (e : exn) : bool :=
  match e with AttributeError => true | _ => false end.

Definition is_TypeError_or_ValueError (e : exn) : bool :=
  match e with TypeError | ValueError _ => true | _ => false end.

Definition is_MariadbError (e : exn) : bool :=
  match e with MariadbError _ => true | _ => false end.

(** [except:] and [except Exception:] catch every exception of [exn]. *)
Definition any_exception (e : exn) : bool := true.

Inductive result (A : Type) : Type :=
  | Return (a : A)
  | Raise (e : exn).
Arguments Return {A} a.
Arguments Raise {A} e.

#[global] Instance result_ret : MRet result := fun A a => Return a.
#[global] Instance result_bind : MBind result :=
  fun A B f m => match m with Return a => f a | Raise e => Raise e end.

(** [try: body except <catches>: handler] *)
Definition try_except {A} (body : result A) (catches : exn -> bool)
    (handler : exn -> result A) : result A :=
  match body with
  | Return a => Return a
  | Raise e => if catches e then handler e else Raise e
  end.

(** ** Values read from JSON documents *)

(** What [json.load] yields for the value of a key: [null], a boolean, an
    integer, a float, a string, or a list or dict (kept with its [str()]
    rendering only, since the sources never look inside one). *)
Inductive jvalue : Type :=
  | JNull
  | JBool (b : bool)
  | JInt (n : Z)
  | JFloat (f : pyfloat.float)
  | JStr (s : string)
  | JOther (rendering : string).

(** The three states of a file the sources open and parse as JSON: it does
    not exist, [json.load] rejects it, or it parses (to a JSON object, the
    only kind of document the sources index by key). *)
Inductive json_file (A : Type) : Type :=
  | FileMissing
  | FileMalformed
  | FileJson (content : A).
Arguments FileMissing {A}.
Arguments FileMalformed {A}.
Arguments FileJson {A} content.

(** [d[key]] on a dict. *)
Definition getitem {V} (d : gmap string V) (key : string) : result V :=
  match d !! key with
  | Some v => Return v
  | None => Raise (KeyError key)
  end.

(** [d.get(key)] and [d.get(key, default)] on a dict whose values may be
    [None]: the default is used only when the key is not in the dict. *)
Definition dict_get {V} (d : gmap string (option V)) (key : string)
    (default : option V) : option V :=
  match d !! key with
  | Some v => v
  | None => default
  end.

(** ** Devices and readings *)

(** A [usb.core.Device].  [idVendor] and [idProduct] are integers filled in
    from the device descriptor when the object is built; the three strings
    are fetched from the device on demand, so each
    [usb.util.get_string(dev, dev.iX)] either yields a string (or [None]
    when the device has no such string) or raises. *)
Record usb_device : Type := {
  idVendor : Z;
  idProduct : Z;
  manufacturer_string : result (option string);
  product_string : result (option string);
  serial_string : result (option string)
}.

(** A device handle of [TemperHandler().get_devices()].  [_device] is [None]
    for the driver versions that do not expose the attribute. *)
Record temper_device : Type := {
  _device : option usb_device;
  get_temperature : result pyfloat.float
}.

(** One element of the list [get_medicion] returns. *)
Record medicion : Type := {
  metadata : gmap string (option string);
  temperature_c : pyfloat.float
}.

(** ** The telemetry record and the log *)

(** The payload dict that [main] builds for every sensor: its twelve keys are
    fixed by the dict literal, so it is a record here.  Values that may be
    [None] are options; [ubicacion], [cpd] and [sala] are whatever JSON value
    the location configuration holds. *)
Record payload : Type := {
  fecha_hora : string;
  nombre_sensor : option string;
  numero_serie : option string;
  ubicacion : jvalue;
  hostname_maquina : string;
  ip_maquina : option string;
  id_maquina : option string;
  temperatura : pyfloat.float;
  humedad : option pyfloat.float;
  bateria : option pyfloat.float;
  cpd : jvalue;
  sala : jvalue
}.

Inductive level : Type := INFO | WARNING | ERROR.

(** The log lines of [main], kept structured: the text of a line is fixed by
    its constructor and the values it carries.
    - [MsgNoSensors]: "No se detectaron sensores TEMPer."
    - [MsgPayload p]: the payload dict itself
    - [MsgInserted n t]: f"Payload insertado en DB: {n} | {t:.2f}°C"
    - [MsgInsertError n]: f"Error al insertar en DB: {n}"
    - [MsgRunError e]: f"Error al leer sensores: {e}" *)
Inductive message : Type :=
  | MsgNoSensors
  | MsgPayload (p : payload)
  | MsgInserted (nombre_sensor : option string) (temperatura : pyfloat.float)
  | MsgInsertError (nombre_sensor : option string)
  | MsgRunError (e : exn).

(** ** Interactions with the outside world *)

(** Every interaction of a run with something outside the program, recorded
    when it is attempted.  [EvCall_get_medicion] and [EvCall_insert_into_db]
    mark the entry into the acquisition and the delivery function.  The reads
    of the USB string descriptors inside [get_device_metadata] leave no event:
    their outcomes are part of the device. *)
Inductive event : Type :=
  | EvGetHostname
  | EvProbeIp
  | EvReadMachineId
  | EvGetNode
  | EvConfigFile (full_path : string)        (* the location configuration is opened *)
  | EvCredentialsFile (full_path : string)   (* the credentials file is opened *)
  | EvCall_get_medicion (offset_celsius : pyfloat.float)
  | EvGetDevices
  | EvGetTemperature (device : temper_device)
  | EvCall_insert_into_db (telemetry_data : payload)
  | EvConnect
  | EvCursor
  | EvExecute (values : payload)
  | EvCommit
  | EvCursorClose
  | EvConnClose
  | EvLog (lvl : level) (msg : message).

(** A computation with effects: the trace of its interactions, and its
    outcome. *)
Definition M (A : Type) : Type := (list event * result A)%type.

Definition trace {A} (m : M A) : list event := fst m.
Definition outcome {A} (m : M A) : result A := snd m.

#[global] Instance M_ret : MRet M := fun A a => ([], Return a).
#[global] Instance M_bind : MBind M :=
  fun A B f m =>
    match m with
    | (t, Return a) => let '(t', r) := f a in (t ++ t', r)
    | (t, Raise e) => (t, Raise e)
    end.

(** An outside operation: it leaves [ev] in the trace and ends as [r]. *)
Definition perform {A} (ev : event) (r : result A) : M A := ([ev], r).

(** A computation that touches nothing outside the program. *)
Definition lift {A} (r : result A) : M A := ([], r).

(** [try: body except <catches>: handler] *)
Definition try_exceptM {A} (body : M A) (catches : exn -> bool)
    (handler : exn -> M A) : M A :=
  match body with
  | (t, Return a) => (t, Return a)
  | (t, Raise e) =>
      if catches e then let '(t', r) := handler e in (t ++ t', r)
      else (t, Raise e)
  end.

(** [try: body finally: final]: [final] runs however [body] ends, and an
    exception of [final] replaces the outcome of [body]. *)
Definition try_finally {A} (body : M A) (final : M unit) : M A :=
  let '(t, r) := body in
  match final with
  | (t', Return _) => (t ++ t', r)
  | (t', Raise e) => (t ++ t', Raise e)
  end.

(** [logger.info], [logger.warning], [logger.error] *)
Definition logger_info (msg : message) : M unit := perform (EvLog INFO msg) (Return tt).
Definition logger_warning (msg : message) : M unit := perform (EvLog WARNING msg) (Return tt).
Definition logger_error (msg : message) : M unit := perform (EvLog ERROR msg) (Return tt).

(** ** module/db_connection.py *)

Module db_connection.

(** A cursor and a connection of the [mariadb] driver, as the outcomes of
    the methods the sources call on them. *)
Record cursor_obj : Type := {
  execute : result unit;
  cursor_close : result unit
}.

Record connection : Type := {
  cursor : result cursor_obj;
  commit : result unit;
  conn_close : result unit
}.

(** The database side of the world at one delivery call: the credentials
    file (a JSON object of JSON objects) and what [mariadb.connect] does. *)
Record db_env : Type := {
  abspath : string -> string;
  credentials_file : json_file (gmap string (gmap string jvalue));
  connect : result connection
}.

Definition load_credentials (env : db_env) (config_path : string)
    : M (gmap string jvalue) :=
  let full_path := abspath env config_path in
  match credentials_file env with
  | FileMissing =>
      perform (EvCredentialsFile full_path)
        (Raise (FileNotFoundError ("Credenciales no encontradas: " +:+ full_path)))
  | FileMalformed => perform (EvCredentialsFile full_path) (Raise JSONDecodeError)
  | FileJson doc => perform (EvCredentialsFile full_path) (getitem doc "database")
  end.

Definition get_db_connection (env : db_env) : M (option connection) :=
  creds ← load_credentials env "config/credenciales.json";
  try_exceptM
    (_ ← lift (getitem creds "host");
     _ ← lift (getitem creds "port");
     _ ← lift (getitem creds "user");
     _ ← lift (getitem creds "password");
     _ ← lift (getitem creds "database");
     conn ← perform EvConnect (connect env);
     mret (Some conn))
    is_MariadbError
    (fun _ => mret None).

End db_connection.

(** ** module/json_builder.py *)

Module json_builder.
Import db_connection.

Definition insert_into_db (env : db_env) (telemetry_data : payload) : M bool :=
  _ ← perform (EvCall_insert_into_db telemetry_data) (Return tt);
  conn ← get_db_connection env;
  match conn with
  | None => mret false
  | Some conn =>
      cur ← perform EvCursor (cursor conn);
      try_finally
        (try_exceptM
           (let values := telemetry_data in
            _ ← perform (EvExecute values) (execute cur);
            _ ← perform EvCommit (commit conn);
            mret true)
           is_MariadbError
           (fun _ => mret false))
        (_ ← perform EvCursorClose (cursor_close cur);
         perform EvConnClose (conn_close conn))
  end.

End json_builder.

(** ** module/temper_reader.py *)

Module temper_reader.

(** [device._device] *)
Definition getattr_device (device : temper_device) : result usb_device :=
  match _device device with
  | Some dev => Return dev
  | None => Raise AttributeError
  end.

(** [hex(n)] *)
Definition hex (n : Z) : string := HexString.of_Z n.

(** Truth value of a [str] or [None]. *)
Definition truthy (s : option string) : bool :=
  match s with
  | Some (String _ _) => true
  | _ => false
  end.

Definition Desconocido : string := "Desconocido".

(** The metadata dict: the value [None] under a key is Python's [None]. *)
Definition get_device_metadata (device : temper_device)
    : result (gmap string (option string)) :=
  let metadata : gmap string (option string) := ∅ in
  try_except
    (dev ← getattr_device device;
     let metadata := <["vendor_id" := Some (hex (idVendor dev))]> metadata in
     dev ← getattr_device device;
     let metadata := <["product_id" := Some (hex (idProduct dev))]> metadata in
     metadata ← try_except
       (dev ← getattr_device device;
        s ← manufacturer_string dev;
        mret (<["manufacturer" := s]> metadata))
       any_exception
       (fun _ => mret (<["manufacturer" := None]> metadata));
     metadata ← try_except
       (dev ← getattr_device device;
        s ← product_string dev;
        mret (<["product" := s]> metadata))
       any_exception
       (fun _ => mret (<["product" := None]> metadata));
     metadata ← try_except
       (dev ← getattr_device device;
        serial ← serial_string dev;
        mret (<["serial_number" :=
                 if truthy serial then serial else Some Desconocido]> metadata))
       any_exception
       (fun _ => mret (<["serial_number" := Some Desconocido]> metadata));
     mret metadata)
    is_AttributeError
    (fun _ =>
       mret (<["vendor_id" := None]>
             (<["product_id" := None]>
             (<["manufacturer" := None]>
             (<["product" := None]>
             (<["serial_number" := Some Desconocido]> ∅))))))%stdpp.

(** The loop of [get_medicion] over the enumerated devices; [output] is the
    list built so far. *)
Fixpoint get_medicion_loop (devices : list temper_device)
    (offset_celsius : pyfloat.float) (output : list medicion)
    : M (list medicion) :=
  match devices with
  | [] => mret output
  | device :: rest =>
      md ← lift (get_device_metadata device);
      t ← perform (EvGetTemperature device) (get_temperature device);
      let data := {| metadata := md;
                     temperature_c := pyfloat.add t offset_celsius |} in
      get_medicion_loop rest offset_celsius (output ++ [data])
  end.

(** [enumeration] is what [TemperHandler().get_devices()] does in this
    run. *)
Definition get_medicion (enumeration : result (list temper_device))
    (offset_celsius : pyfloat.float) : M (list medicion) :=
  _ ← perform (EvCall_get_medicion offset_celsius) (Return tt);
  devices ← perform EvGetDevices enumeration;
  get_medicion_loop devices offset_celsius [].

End temper_reader.

(** ** The world of one run *)

(** Everything outside the program that a run of [main] depends on. *)
Record world : Type := {
  (* the interpreter *)
  float_of_str : string -> option pyfloat.float;  (* float(s); None: ValueError *)
  float_repr : pyfloat.float -> string;           (* str(x) of a float *)
  w_abspath : string -> string;                   (* os.path.abspath *)
  (* the host *)
  gethostname : string;                           (* socket.gethostname() *)
  ip_probe : result string;                       (* the UDP socket of get_ip *)
  machine_id_file : result string;                (* /etc/machine-id, stripped *)
  uuid_getnode : result string;                   (* str(uuid.getnode()) *)
  (* the location configuration, by full path *)
  config_file : string -> json_file (gmap string jvalue);
  (* the USB bus *)
  get_devices : result (list temper_device);      (* TemperHandler().get_devices() *)
  (* the clock: the formatted [datetime.now()] of the i-th loop iteration *)
  now : nat -> string;
  (* the database side at the i-th delivery call *)
  db : nat -> db_connection.db_env
}.

(** ** module/system_info.py *)

Module system_info.

(** The dict [get_system_info] returns: three fixed keys. *)
Record system : Type := {
  hostname : string;
  ip_maquina : option string;
  id_maquina : option string
}.

Definition get_hostname (w : world) : M string :=
  perform EvGetHostname (Return (gethostname w)).

Definition get_ip (w : world) : M (option string) :=
  try_exceptM
    (ip ← perform EvProbeIp (ip_probe w);
     mret (Some ip))
    any_exception
    (fun _ => mret None).

Definition get_machine_id (w : world) : M (option string) :=
  try_exceptM
    (s ← perform EvReadMachineId (machine_id_file w);
     mret (Some s))
    any_exception
    (fun _ =>
       try_exceptM
         (n ← perform EvGetNode (uuid_getnode w);
          mret (Some n))
         any_exception
         (fun _ => mret None)).

Definition get_system_info (w : world) (use_dynamic_ip : bool) : M system :=
  hostname ← get_hostname w;
  ip ← (if use_dynamic_ip then get_ip w else mret None);
  machine_id ← get_machine_id w;
  mret {| hostname := hostname; ip_maquina := ip; id_maquina := machine_id |}.

End system_info.

(** ** module/location_info.py *)

Module location_info.

(** [float(v)] *)
Definition py_float (w : world) (v : jvalue) : result pyfloat.float :=
  match v with
  | JNull => Raise TypeError
  | JBool b => Return (pyfloat.of_Z (if b then 1 else 0))
  | JInt n =>
      let f := pyfloat.of_Z n in
      if pyfloat.is_finite f then Return f else Raise OverflowError
  | JFloat f => Return f
  | JStr s =>
      match float_of_str w s with
      | Some f => Return f
      | None => Raise (ValueError ("could not convert string to float: " +:+ s))
      end
  | JOther _ => Raise TypeError
  end.

(** [str(v)], as an f-string renders a value. *)
Definition py_str (w : world) (v : jvalue) : string :=
  match v with
  | JNull => "None"
  | JBool true => "True"
  | JBool false => "False"
  | JInt n => DecimalString.NilZero.string_of_int (Z.to_int n)
  | JFloat f => float_repr w f
  | JStr s => s
  | JOther rendering => rendering
  end.

Definition required_keys : list string :=
  ["ubicacion"; "cpd"; "sala"; "offset_celsius"].

(** The loop over [required_keys]. *)
Fixpoint check_required_keys (keys : list string) (data : gmap string jvalue)
    (full_path : string) : result unit :=
  match keys with
  | [] => Return tt
  | key :: rest =>
      match data !! key with
      | None => Raise (KeyError ("Falta la clave '" +:+ key +:+ "' en " +:+ full_path))
      | Some _ => check_required_keys rest data full_path
      end
  end.

Definition get_location_data (w : world) (config_path : string)
    : M (gmap string jvalue) :=
  let full_path := w_abspath w config_path in
  data ← match config_file w full_path with
         | FileMissing =>
             perform (EvConfigFile full_path)
               (Raise (FileNotFoundError
                         ("Archivo de configuración no encontrado: " +:+ full_path)))
         | FileMalformed => perform (EvConfigFile full_path) (Raise JSONDecodeError)
         | FileJson data => perform (EvConfigFile full_path) (Return data)
         end;
  _ ← lift (check_required_keys required_keys data full_path);
  data ← lift (try_except
                 (v ← getitem data "offset_celsius";
                  f ← py_float w v;
                  mret (<["offset_celsius" := JFloat f]> data))
                 is_TypeError_or_ValueError
                 (fun _ =>
                    v ← getitem data "offset_celsius";
                    Raise (ValueError
                             ("El valor de 'offset_celsius' debe ser numérico, se encontró: "
                              +:+ py_str w v))));
  mret data.

End location_info.

(** ** main.py *)

Module main.

(** The argument [get_medicion] receives for [offset_celsius: float]:
    [get_location_data] always stores a float under the key. *)
Definition as_float (v : jvalue) : result pyfloat.float :=
  match v with
  | JFloat f => Return f
  | _ => Raise TypeError
  end.

(** The payload dict literal of the loop body, for the sensor handled in
    iteration [i]. *)
Definition build_payload (w : world) (system : system_info.system)
    (location : gmap string jvalue) (i : nat) (sensor : medicion)
    : result payload :=
  let temp := temperature_c sensor in
  let metadata := metadata sensor in
  location_ubicacion ← getitem location "ubicacion";
  location_cpd ← getitem location "cpd";
  location_sala ← getitem location "sala";
  mret {| fecha_hora := now w i;
          nombre_sensor := dict_get metadata "product" (Some "Desconocido"%string);
          numero_serie := dict_get metadata "serial_number" None;
          ubicacion := location_ubicacion;
          hostname_maquina := system_info.hostname system;
          ip_maquina := system_info.ip_maquina system;
          id_maquina := system_info.id_maquina system;
          temperatura := pyfloat.round temp 2;
          humedad := None;
          bateria := None;
          cpd := location_cpd;
          sala := location_sala |}.

(** The [for sensor in mediciones] loop; [i] counts the iterations done. *)
Fixpoint delivery_loop (w : world) (system : system_info.system)
    (location : gmap string jvalue) (i : nat) (mediciones : list medicion)
    : M unit :=
  match mediciones with
  | [] => mret tt
  | sensor :: rest =>
      payload ← lift (build_payload w system location i sensor);
      _ ← logger_info (MsgPayload payload);
      success ← json_builder.insert_into_db (db w i) payload;
      _ ← (if success : bool
           then logger_info (MsgInserted (nombre_sensor payload) (temperatura payload))
           else logger_error (MsgInsertError (nombre_sensor payload)));
      delivery_loop w system location (S i) rest
  end.

(** The path [main] passes to [get_location_data]. *)
Definition config_path : string := "config/config.json".

(** The body of the [try] block of [main]. *)
Definition main_body (w : world) : M unit :=
  system ← system_info.get_system_info w true;
  location ← location_info.get_location_data w config_path;
  offset ← lift (getitem location "offset_celsius");
  offset ← lift (as_float offset);
  mediciones ← temper_reader.get_medicion (get_devices w) offset;
  match mediciones with
  | [] => logger_warning MsgNoSensors
  | _ => delivery_loop w system location 0 mediciones
  end.

Definition main (w : world) : M unit :=
  try_exceptM (main_body w) any_exception (fun e => logger_error (MsgRunError e)).

End main.

(** ** What a trace shows *)

Module observe.

(** The payloads written to the log, in order. *)
Definition logged_payloads (t : list event) : list payload :=
  omap (fun ev => match ev with EvLog INFO (MsgPayload p) => Some p | _ => None end) t.

(** The payloads [insert_into_db] was called with, in order. *)
Definition delivery_attempts (t : list event) : list payload :=
  omap (fun ev => match ev with EvCall_insert_into_db p => Some p | _ => None end) t.

(** The value tuples handed to [cursor.execute], in order. *)
Definition executed_inserts (t : list event) : list payload :=
  omap (fun ev => match ev with EvExecute values => Some values | _ => None end) t.

(** The "Error al insertar en DB" lines, in order. *)
Definition failure_entries (t : list event) : list (option string) :=
  omap (fun ev => match ev with EvLog ERROR (MsgInsertError n) => Some n | _ => None end) t.

(** The "Payload insertado en DB" lines, in order. *)
Definition success_entries (t : list event) : list (option string) :=
  omap (fun ev => match ev with EvLog INFO (MsgInserted n _) => Some n | _ => None end) t.

(** The "Error al leer sensores" lines: the exceptions that ended a run. *)
Definition run_errors (t : list event) : list exn :=
  omap (fun ev => match ev with EvLog ERROR (MsgRunError e) => Some e | _ => None end) t.

(** Device enumeration and temperature reads. *)
Definition is_sensor_io (ev : event) : bool :=
  match ev with
  | EvGetDevices | EvGetTemperature _ => true
  | _ => false
  end.

(** Anything of the acquisition layer: the call of [get_medicion] and the
    sensor I/O it does. *)
Definition is_acquisition (ev : event) : bool :=
  match ev with
  | EvCall_get_medicion _ | EvGetDevices | EvGetTemperature _ => true
  | _ => false
  end.

(** The lookups of [get_system_info] and the read of the location
    configuration: what fills the host and location context. *)
Definition is_context_capture (ev : event) : bool :=
  match ev with
  | EvGetHostname | EvProbeIp | EvReadMachineId | EvGetNode | EvConfigFile _ => true
  | _ => false
  end.

(** What the delivery loop does: log lines, calls of [insert_into_db], and
    the credentials-file and database operations of those calls. *)
Definition is_delivery (ev : event) : bool :=
  match ev with
  | EvLog _ _ | EvCall_insert_into_db _ | EvCredentialsFile _ | EvConnect | EvCursor
  | EvExecute _ | EvCommit | EvCursorClose | EvConnClose => true
  | _ => false
  end.

(** The temperature of [device] can be read. *)
Definition readable (device : temper_device) : Prop :=
  exists t, get_temperature device = Return t.

(** The temperature read of [device] raises. *)
Definition unreadable (device : temper_device) : Prop :=
  exists e, get_temperature device = Raise e.

(** [r] is the reading [get_medicion] builds for [device]: its metadata, and
    its temperature plus the offset. *)
Definition reading_of (offset_celsius : pyfloat.float) (device : temper_device)
    (r : medicion) : Prop :=
  temper_reader.get_device_metadata device = Return (metadata r) /\
  exists t, get_temperature device = Return t /\
            temperature_c r = pyfloat.add t offset_celsius.

(** The events of one call [insert_into_db(p)], after the entry into the
    function: database and credentials-file operations only, and an execute
    only with the values of [p]. *)
Definition db_event_for (p : payload) (ev : event) : Prop :=
  match ev with
  | EvCredentialsFile _ | EvConnect | EvCursor | EvCommit | EvCursorClose | EvConnClose => True
  | EvExecute values => values = p
  | _ => False
  end.

(** The keys of the credentials object that [get_db_connection] reads. *)
Definition credential_keys : list string :=
  ["host"; "port"; "user"; "password"; "database"].

(** [p] is the record [main] assembles from one of the readings. *)
Definition assembled (w : world) (system : system_info.system)
    (location : gmap string jvalue) (mediciones : list medicion) (p : payload) : Prop :=
  exists i sensor,
    sensor ∈ mediciones /\ main.build_payload w system location i sensor = Return p.

(** [p] carries the host context [system] and the location labels [u], [c]
    and [s], and no humidity or battery value. *)
Definition carries_context (system : system_info.system) (u c s : jvalue)
    (p : payload) : Prop :=
  hostname_maquina p = system_info.hostname system /\
  ip_maquina p = system_info.ip_maquina system /\
  id_maquina p = system_info.id_maquina system /\
  ubicacion p = u /\ cpd p = c /\ sala p = s /\
  humedad p = None /\ bateria p = None.

(** The temperature of [p] is the raw reading of one of [devices] plus the
    offset, rounded to two decimals. *)
Definition rounded_sum (devices : list temper_device) (offset_celsius : pyfloat.float)
    (p : payload) : Prop :=
  exists device raw,
    device ∈ devices /\ get_temperature device = Return raw /\
    temperatura p = pyfloat.round (pyfloat.add raw offset_celsius) 2.

End observe.

(** ** Sample devices, files and worlds *)

Module samples.
Import db_connection.

Definition usb_full : usb_device :=
  {| idVendor := 16701; idProduct := 8455;
     manufacturer_string := Return (Some "RDing"%string);
     product_string := Return (Some "TEMPer Sensor"%string);
     serial_string := Return (Some "A1B2C3D4"%string) |}.

(** The serial-number string cannot be read. *)
Definition usb_serial_unreadable : usb_device :=
  {| idVendor := 16701; idProduct := 8455;
     manufacturer_string := Return (Some "RDing"%string);
     product_string := Return (Some "TEMPer Sensor"%string);
     serial_string := Raise (USBError "Pipe error") |}.

(** The product string cannot be read. *)
Definition usb_product_unreadable : usb_device :=
  {| idVendor := 16701; idProduct := 8455;
     manufacturer_string := Return (Some "RDing"%string);
     product_string := Raise (USBError "Pipe error");
     serial_string := Return (Some "A1B2C3D4"%string) |}.

Definition device_reading (raw : pyfloat.float) : temper_device :=
  {| _device := Some usb_full; get_temperature := Return raw |}.

Definition device_product_unreadable (raw : pyfloat.float) : temper_device :=
  {| _device := Some usb_product_unreadable; get_temperature := Return raw |}.

(** A handle of a driver version without [_device]. *)
Definition device_without_descriptor (raw : pyfloat.float) : temper_device :=
  {| _device := None; get_temperature := Return raw |}.

(** A device whose temperature cannot be read. *)
Definition device_unreadable : temper_device :=
  {| _device := Some usb_full; get_temperature := Raise (USBError "Timeout") |}.

Definition config_ok : gmap string jvalue :=
  <["ubicacion" := JStr "Madrid"]>
  (<["cpd" := JStr "CPD1"]>
  (<["sala" := JStr "Sala A"]>
  (<["offset_celsius" := JFloat (pyfloat.of_decimal (-614) 2)]> ∅))).

Definition config_without_offset : gmap string jvalue :=
  <["ubicacion" := JStr "Madrid"]>
  (<["cpd" := JStr "CPD1"]>
  (<["sala" := JStr "Sala A"]> ∅)).

(** [offset_celsius] is [null]. *)
Definition config_offset_null : gmap string jvalue :=
  <["offset_celsius" := JNull]> config_ok.

Definition creds_ok : gmap string jvalue :=
  <["host" := JStr "servidor"]>
  (<["port" := JInt 3306]>
  (<["user" := JStr "usuario"]>
  (<["password" := JStr "pass"]>
  (<["database" := JStr "BBDD"]> ∅)))).

Definition credentials_ok : gmap string (gmap string jvalue) :=
  <["database" := creds_ok]> ∅.

Definition cursor_ok : cursor_obj :=
  {| execute := Return tt; cursor_close := Return tt |}.

Definition cursor_rejecting : cursor_obj :=
  {| execute := Raise (MariadbError "Data too long"); cursor_close := Return tt |}.

Definition connection_ok : connection :=
  {| cursor := Return cursor_ok; commit := Return tt; conn_close := Return tt |}.

Definition connection_rejecting : connection :=
  {| cursor := Return cursor_rejecting; commit := Return tt; conn_close := Return tt |}.

Definition db_ok : db_env :=
  {| abspath := fun p => "/opt/temper/" +:+ p;
     credentials_file := FileJson credentials_ok;
     connect := Return connection_ok |}.

Definition db_unreachable : db_env :=
  {| abspath := fun p => "/opt/temper/" +:+ p;
     credentials_file := FileJson credentials_ok;
     connect := Raise (MariadbError "Can't connect to server") |}.

Definition db_rejecting : db_env :=
  {| abspath := fun p => "/opt/temper/" +:+ p;
     credentials_file := FileJson credentials_ok;
     connect := Return connection_rejecting |}.

Definition db_without_credentials : db_env :=
  {| abspath := fun p => "/opt/temper/" +:+ p;
     credentials_file := FileMissing;
     connect := Return connection_ok |}.

Definition payload_sample : payload :=
  {| fecha_hora := "2025-11-15 12:00:00";
     nombre_sensor := Some "TEMPer Sensor"%string;
     numero_serie := Some "A1B2C3D4"%string;
     ubicacion := JStr "Madrid";
     hostname_maquina := "sonda-01";
     ip_maquina := Some "192.168.0.14"%string;
     id_maquina := Some "a3f87b94eaf34936bd2f35c12d5be901"%string;
     temperatura := pyfloat.of_decimal 2237 2;
     humedad := None;
     bateria := None;
     cpd := JStr "CPD1";
     sala := JStr "Sala A" |}.

(** A world with the given configuration file, devices and database. *)
Definition world_of (config : json_file (gmap string jvalue))
    (devices : result (list temper_device)) (dbs : nat -> db_env) : world :=
  {| float_of_str := fun _ => None;
     float_repr := fun _ => "?"%string;
     w_abspath := fun p => "/opt/temper/" +:+ p;
     gethostname := "sonda-01";
     ip_probe := Return "192.168.0.14"%string;
     machine_id_file := Return "a3f87b94eaf34936bd2f35c12d5be901"%string;
     uuid_getnode := Return "2485377892363"%string;
     config_file := fun _ => config;
     get_devices := devices;
     now := fun _ => "2025-11-15 12:00:00"%string;
     db := dbs |}.

Definition raw_28_512 : pyfloat.float := pyfloat.of_decimal 28512 3.
Definition raw_30 : pyfloat.float := pyfloat.of_decimal 30 0.

Definition offset_sample : pyfloat.float := pyfloat.of_decimal (-614) 2.

(** The location dict [get_location_data] returns for [config_ok]. *)
Definition location_ok : gmap string jvalue :=
  <["offset_celsius" := JFloat offset_sample]> config_ok.

(** The metadata dict of [usb_full]. *)
Definition metadata_full : gmap string (option string) :=
  <["serial_number" := Some "A1B2C3D4"%string]>
  (<["product" := Some "TEMPer Sensor"%string]>
  (<["manufacturer" := Some "RDing"%string]>
  (<["product_id" := Some "0x2107"%string]>
  (<["vendor_id" := Some "0x413d"%string]> ∅)))).

Definition medicion_of (raw : pyfloat.float) : medicion :=
  {| metadata := metadata_full; temperature_c := pyfloat.add raw offset_sample |}.

(** Three sensors; the database rejects the second delivery only. *)
Definition world_second_delivery_fails : world :=
  world_of (FileJson config_ok)
    (Return [device_reading raw_28_512; device_reading raw_30; device_reading raw_28_512])
    (fun i => match i with 1%nat => db_unreachable | _ => db_ok end).

(** One sensor, no credentials file. *)
Definition world_without_credentials : world :=
  world_of (FileJson config_ok) (Return [device_reading raw_28_512])
    (fun _ => db_without_credentials).

(** No sensor, no credentials file. *)
Definition world_no_sensor_no_credentials : world :=
  world_of (FileJson config_ok) (Return []) (fun _ => db_without_credentials).

(** The configuration lacks [offset_celsius]. *)
Definition world_without_offset : world :=
  world_of (FileJson config_without_offset) (Return [device_reading raw_28_512])
    (fun _ => db_ok).

(** The configuration has [offset_celsius] set to [null]. *)
Definition world_offset_null : world :=
  world_of (FileJson config_offset_null) (Return [device_reading raw_28_512])
    (fun _ => db_ok).

(** The second of three devices cannot be read. *)
Definition world_second_device_unreadable : world :=
  world_of (FileJson config_ok)
    (Return [device_reading raw_28_512; device_unreadable; device_reading raw_30])
    (fun _ => db_ok).

(** Two sensors whose product name is absent: one handle without the
    descriptor, one whose product string cannot be read. *)
Definition world_product_absent : world :=
  world_of (FileJson config_ok)
    (Return [device_without_descriptor raw_30; device_product_unreadable raw_30])
    (fun _ => db_ok).

End samples.

(** ** Counting the events of a trace *)

Module tally.



Definition is_EvConnClose (ev : event) : bool :=
  match ev with EvConnClose => true | _ => false end.


(** How many events of [t] satisfy [P]. *)
Definition count (P : event -> bool) (t : list event) : nat :=
  length (List.filter P t).

(** The devices whose temperature was asked for, in order. *)
Definition temperature_reads (t : list event) : list temper_device :=
  omap (fun ev => match ev with EvGetTemperature d => Some d | _ => None end) t.

(** The call [insert_into_db] gets as far as [cursor.execute]: the credentials
    load with their five keys, the connection is established and its cursor
    opens. *)
Definition reaches_execute (env : db_connection.db_env) : bool :=
  match db_connection.credentials_file env with
  | FileJson doc =>
      match doc !! "database" with
      | Some creds =>
          match creds !! "host", creds !! "port", creds !! "user",
                creds !! "password", creds !! "database" with
          | Some _, Some _, Some _, Some _, Some _ =>
              match db_connection.connect env with
              | Return conn =>
                  match db_connection.cursor conn with
                  | Return _ => true
                  | Raise _ => false
                  end
              | Raise _ => false
              end
          | _, _, _, _, _ => false
          end
      | None => false
      end
  | _ => false
  end.

(** The serial number of [p] is a non-empty string. *)
Definition has_serial (p : payload) : Prop :=
  exists s, numero_serie p = Some s /\ s <> ""%string.

End tally.

(** ** More sample worlds *)

Module more_samples.
Import db_connection samples.

(** The configuration file does not exist. *)
Definition world_without_config : world :=
  world_of FileMissing (Return [device_reading raw_28_512]) (fun _ => db_ok).

(** The configuration lacks [cpd] and [offset_celsius]. *)
Definition config_two_missing : gmap string jvalue :=
  <["ubicacion" := JStr "Madrid"]> (<["sala" := JStr "Sala A"]> ∅).

Definition world_two_missing : world :=
  world_of (FileJson config_two_missing) (Return [device_reading raw_28_512])
    (fun _ => db_ok).

(** The offset is the integer -6. *)
Definition config_int_offset : gmap string jvalue :=
  <["offset_celsius" := JInt (-6)]> config_ok.

Definition world_int_offset : world :=
  world_of (FileJson config_int_offset) (Return []) (fun _ => db_ok).

(** Credentials without the key [password]. *)
Definition creds_without_password : gmap string jvalue :=
  <["host" := JStr "servidor"]>
  (<["port" := JInt 3306]>
  (<["user" := JStr "usuario"]>
  (<["database" := JStr "BBDD"]> ∅))).

Definition db_without_password : db_env :=
  {| abspath := fun p => "/opt/temper/" +:+ p;
     credentials_file := FileJson (<["database" := creds_without_password]> ∅);
     connect := Return connection_ok |}.

(** The connection cannot open a cursor. *)
Definition connection_without_cursor : connection :=
  {| cursor := Raise (MariadbError "Server has gone away");
     commit := Return tt; conn_close := Return tt |}.

Definition db_without_cursor : db_env :=
  {| abspath := fun p => "/opt/temper/" +:+ p;
     credentials_file := FileJson credentials_ok;
     connect := Return connection_without_cursor |}.

(** The cursor cannot be closed. *)
Definition cursor_stuck : cursor_obj :=
  {| execute := Return tt; cursor_close := Raise (MariadbError "Lost connection") |}.

Definition connection_stuck : connection :=
  {| cursor := Return cursor_stuck; commit := Return tt; conn_close := Return tt |}.

Definition db_stuck : db_env :=
  {| abspath := fun p => "/opt/temper/" +:+ p;
     credentials_file := FileJson credentials_ok;
     connect := Return connection_stuck |}.

(** No sensor attached. *)
Definition world_no_sensor : world :=
  world_of (FileJson config_ok) (Return []) (fun _ => db_ok).

(** Three sensors; the second delivery finds the credentials without
    [password]. *)
Definition world_second_delivery_raises : world :=
  world_of (FileJson config_ok)
    (Return [device_reading raw_28_512; device_reading raw_30; device_reading raw_28_512])
    (fun i => match i with 1%nat => db_without_password | _ => db_ok end).

End more_samples.

(** * Properties *)

(** ** The trace monad *)

Section monad_facts.
Context {A B : Type}.

Lemma bind_Return (t : list event) (a : A) (f : A -> M B) :
  ((t, Return a) : M A) ≫= f = (t ++ trace (f a), outcome (f a)).
Proof. unfold mbind, M_bind, trace, outcome. destruct (f a); reflexivity. Qed.

Lemma bind_Raise (t : list event) (e : exn) (f : A -> M B) :
  ((t, Raise e) : M A) ≫= f = (t, Raise e).
Proof. reflexivity. Qed.

Lemma M_eta (m : M A) : m = (trace m, outcome m).
Proof. destruct m; reflexivity. Qed.

End monad_facts.

(** [except Exception] leaves nothing to propagate. *)
Lemma try_exceptM_any {A} (body : M A) (handler : exn -> M A) :
  try_exceptM body any_exception handler =
  match outcome body with
  | Return a => (trace body, Return a)
  | Raise e => (trace body ++ trace (handler e), outcome (handler e))
  end.
Proof.
  destruct body as [t [a|e]]; cbn; [reflexivity|].
  destruct (handler e); reflexivity.
Qed.

(** ** C3: metadata extraction *)

(** The dict of a handle that exposes its descriptor has the five keys. *)
Lemma metadata_keys (a b c d e : option string) :
  dom (<["vendor_id" := a]> (<["product_id" := b]> (<["manufacturer" := c]>
        (<["product" := d]> (<["serial_number" := e]> (∅ : gmap string (option string)))))))
  = ({["vendor_id"; "product_id"; "manufacturer"; "product"; "serial_number"]} : gset string).
Proof. rewrite !dom_insert_L, dom_empty_L. set_solver. Qed.

(** The dict [get_device_metadata] returns, written out. *)
Lemma get_device_metadata_value (device : temper_device) :
  temper_reader.get_device_metadata device =
  Return
    match _device device with
    | None =>
        <["vendor_id" := None]> (<["product_id" := None]> (<["manufacturer" := None]>
          (<["product" := None]> (<["serial_number" := Some temper_reader.Desconocido]> ∅))))
    | Some dev =>
        <["serial_number" :=
            match serial_string dev with
            | Return s => if temper_reader.truthy s then s else Some temper_reader.Desconocido
            | Raise _ => Some temper_reader.Desconocido
            end]>
        (<["product" := match product_string dev with Return s => s | Raise _ => None end]>
        (<["manufacturer" :=
             match manufacturer_string dev with Return s => s | Raise _ => None end]>
        (<["product_id" := Some (temper_reader.hex (idProduct dev))]>
        (<["vendor_id" := Some (temper_reader.hex (idVendor dev))]> ∅))))
    end.
Proof.
  destruct device as [[dev|] t]; cbn [_device]; [|reflexivity].
  destruct dev as [v p [ms|me] [ps|pe] [ss|se]]; reflexivity.
Qed.

(** C3 (counterexample to the claim as stated): when the read of the serial
    number fails, the serial-number field does not become null: it becomes the
    sentinel 'Desconocido'. *)
Lemma serial_read_failure_is_not_null :
  serial_string samples.usb_serial_unreadable = Raise (USBError "Pipe error") /\
  exists m : gmap string (option string),
    temper_reader.get_device_metadata
      {| _device := Some samples.usb_serial_unreadable;
         get_temperature := Return samples.raw_30 |} = Return m /\
    m !! "serial_number" = Some (Some "Desconocido"%string) /\
    m !! "serial_number" <> Some None.
Proof.
  split; [reflexivity|]. eexists. split; [reflexivity|].
  split; [vm_compute; reflexivity|]. vm_compute. discriminate.
Qed.

(** C3 (amended): [get_device_metadata] returns a dict for every device handle
    and never raises.  For a handle that exposes its descriptor, a failed read
    of the manufacturer or of the product makes that field [None], a failed
    (or empty) read of the serial number makes that field 'Desconocido', and
    in each case the other fields keep their values.  For a handle without
    the descriptor every field is [None] except the serial number, which is
    'Desconocido'. *)
Theorem get_device_metadata_two_tier (device : temper_device) :
  exists m : gmap string (option string),
    temper_reader.get_device_metadata device = Return m /\
    dom m = ({["vendor_id"; "product_id"; "manufacturer"; "product"; "serial_number"]}
             : gset string) /\
    match _device device with
    | None =>
        m !! "vendor_id" = Some None /\
        m !! "product_id" = Some None /\
        m !! "manufacturer" = Some None /\
        m !! "product" = Some None /\
        m !! "serial_number" = Some (Some temper_reader.Desconocido)
    | Some dev =>
        m !! "vendor_id" = Some (Some (temper_reader.hex (idVendor dev))) /\
        m !! "product_id" = Some (Some (temper_reader.hex (idProduct dev))) /\
        m !! "manufacturer" =
          Some (match manufacturer_string dev with Return s => s | Raise _ => None end) /\
        m !! "product" =
          Some (match product_string dev with Return s => s | Raise _ => None end) /\
        m !! "serial_number" =
          Some (match serial_string dev with
                | Return s =>
                    if temper_reader.truthy s then s else Some temper_reader.Desconocido
                | Raise _ => Some temper_reader.Desconocido
                end)
    end.
Proof.
  eexists. split; [apply get_device_metadata_value|].
  destruct (_device device) as [dev|].
  - split.
    + rewrite !dom_insert_L, dom_empty_L. set_solver.
    + repeat split; simplify_map_eq; reflexivity.
  - split; [apply metadata_keys|]. repeat split; simplify_map_eq; reflexivity.
Qed.

(** ** C4: the sensor name when the product is absent *)

(** The sensor name of a payload is the product entry of the metadata dict:
    [get_device_metadata] always puts the key "product" in the dict, so the
    default of [metadata.get("product", "Desconocido")] is never used. *)
Lemma nombre_sensor_of_device (device : temper_device) (m : gmap string (option string)) :
  temper_reader.get_device_metadata device = Return m ->
  dict_get m "product" (Some "Desconocido"%string) =
  match _device device with
  | None => None
  | Some dev => match product_string dev with Return s => s | Raise _ => None end
  end.
Proof.
  rewrite get_device_metadata_value. intros [= <-]. unfold dict_get.
  destruct (_device device); simplify_map_eq; reflexivity.
Qed.

(** C4 (the code at the failing input): for a handle without the descriptor
    and for a device whose product string cannot be read, the metadata holds
    [None] under "product", and the record handed to [insert_into_db] and to
    [cursor.execute] has the sensor name [None], not 'Desconocido'. *)
Theorem sensor_name_is_None_when_product_absent :
  (exists m : gmap string (option string),
     temper_reader.get_device_metadata (samples.device_without_descriptor samples.raw_30)
       = Return m /\ m !! "product" = Some None) /\
  (exists m : gmap string (option string),
     temper_reader.get_device_metadata (samples.device_product_unreadable samples.raw_30)
       = Return m /\ m !! "product" = Some None) /\
  map nombre_sensor
    (observe.delivery_attempts (trace (main.main samples.world_product_absent)))
    = [None; None] /\
  map nombre_sensor
    (observe.executed_inserts (trace (main.main samples.world_product_absent)))
    = [None; None].
Proof.
  split; [eexists; split; [reflexivity|vm_compute; reflexivity]|].
  split; [eexists; split; [reflexivity|vm_compute; reflexivity]|].
  split; vm_compute; reflexivity.
Qed.

(** ** Acquisition: [get_medicion] *)

Section acquisition.
Variable offset_celsius : pyfloat.float.

Lemma lift_get_device_metadata (device : temper_device) :
  exists m, (lift (temper_reader.get_device_metadata device)
             : M (gmap string (option string))) = ([], Return m)
            /\ temper_reader.get_device_metadata device = Return m.
Proof.
  eexists. rewrite get_device_metadata_value. split; reflexivity.
Qed.

(** One step of the loop, for a device that can be read. *)
Lemma get_medicion_loop_cons_readable device rest output md t :
  temper_reader.get_device_metadata device = Return md ->
  get_temperature device = Return t ->
  temper_reader.get_medicion_loop (device :: rest) offset_celsius output =
  (EvGetTemperature device
     :: trace (temper_reader.get_medicion_loop rest offset_celsius
                 (output ++ [{| metadata := md;
                                temperature_c := pyfloat.add t offset_celsius |}])),
   outcome (temper_reader.get_medicion_loop rest offset_celsius
              (output ++ [{| metadata := md;
                             temperature_c := pyfloat.add t offset_celsius |}]))).
Proof.
  intros Hmd Ht. cbn [temper_reader.get_medicion_loop].
  rewrite Hmd, Ht. unfold lift, perform.
  rewrite bind_Return. cbn [trace outcome fst snd app].
  rewrite bind_Return. reflexivity.
Qed.

(** One step of the loop, for a device that cannot be read. *)
Lemma get_medicion_loop_cons_unreadable device rest output e :
  get_temperature device = Raise e ->
  temper_reader.get_medicion_loop (device :: rest) offset_celsius output =
  ([EvGetTemperature device], Raise e).
Proof.
  intros He. cbn [temper_reader.get_medicion_loop].
  destruct (lift_get_device_metadata device) as (m & -> & _).
  rewrite He. unfold perform. rewrite bind_Return. reflexivity.
Qed.

Lemma get_medicion_loop_readable devices : forall output,
  Forall observe.readable devices ->
  exists readings,
    temper_reader.get_medicion_loop devices offset_celsius output =
      (map EvGetTemperature devices, Return (output ++ readings)) /\
    Forall2 (observe.reading_of offset_celsius) devices readings.
Proof.
  induction devices as [|device rest IH]; intros output Hall.
  - exists []. rewrite app_nil_r. split; [reflexivity|constructor].
  - inversion Hall as [|? ? [t Ht] Hrest]; subst.
    destruct (lift_get_device_metadata device) as (md & _ & Hmd).
    destruct (IH (output ++ [{| metadata := md;
                                temperature_c := pyfloat.add t offset_celsius |}]) Hrest)
      as (readings & Heq & Hread).
    exists ({| metadata := md; temperature_c := pyfloat.add t offset_celsius |} :: readings).
    rewrite (get_medicion_loop_cons_readable _ _ _ _ _ Hmd Ht), Heq.
    cbn [trace outcome fst snd map]. rewrite <- app_assoc. split; [reflexivity|].
    constructor; [|exact Hread].
    split; [exact Hmd|]. exists t. split; [exact Ht|reflexivity].
Qed.

Lemma get_medicion_loop_unreadable devices : forall output,
  Exists observe.unreadable devices ->
  exists e device t,
    device ∈ devices /\ get_temperature device = Raise e /\
    temper_reader.get_medicion_loop devices offset_celsius output = (t, Raise e) /\
    Forall (fun ev => observe.is_sensor_io ev = true) t.
Proof.
  induction devices as [|device rest IH]; intros output Hex.
  - inversion Hex.
  - destruct (get_temperature device) as [t|e] eqn:Ht.
    + assert (Hrest : Exists observe.unreadable rest).
      { inversion Hex as [? ? [e He]|]; subst; [congruence|assumption]. }
      destruct (lift_get_device_metadata device) as (md & _ & Hmd).
      destruct (IH (output ++ [{| metadata := md;
                                  temperature_c := pyfloat.add t offset_celsius |}]) Hrest)
        as (e & d & tr & Hin & He & Heq & Hio).
      exists e, d, (EvGetTemperature device :: tr).
      rewrite (get_medicion_loop_cons_readable _ _ _ _ _ Hmd Ht), Heq.
      repeat split; [right; exact Hin|exact He|].
      constructor; [reflexivity|exact Hio].
    + exists e, device, [EvGetTemperature device].
      rewrite (get_medicion_loop_cons_unreadable _ _ _ _ Ht).
      repeat split; [left|exact Ht|]. constructor; [reflexivity|constructor].
Qed.

Lemma get_medicion_enumerated devices :
  temper_reader.get_medicion (Return devices) offset_celsius =
  (EvCall_get_medicion offset_celsius :: EvGetDevices
     :: trace (temper_reader.get_medicion_loop devices offset_celsius []),
   outcome (temper_reader.get_medicion_loop devices offset_celsius [])).
Proof.
  unfold temper_reader.get_medicion, perform.
  rewrite bind_Return. cbn [app]. rewrite bind_Return. reflexivity.
Qed.

End acquisition.

(** C6 (counterexample to the claim as stated): with a device whose
    temperature cannot be read among the enumerated ones, [get_medicion]
    returns no list at all: it raises. *)
Lemma get_medicion_raises_on_unreadable_device :
  outcome (temper_reader.get_medicion
             (Return [samples.device_reading samples.raw_28_512; samples.device_unreadable])
             (pyfloat.of_decimal (-614) 2))
  = Raise (USBError "Timeout").
Proof. vm_compute. reflexivity. Qed.

(** C6 (amended): for every list of enumerated devices whose temperatures can
    all be read, [get_medicion] returns exactly one reading per device, in the
    order of the enumeration; when no device is enumerated it returns the
    empty list. *)
Theorem get_medicion_one_reading_per_device
    (devices : list temper_device) (offset_celsius : pyfloat.float) :
  Forall observe.readable devices ->
  exists output,
    temper_reader.get_medicion (Return devices) offset_celsius =
      (EvCall_get_medicion offset_celsius :: EvGetDevices :: map EvGetTemperature devices,
       Return output) /\
    Forall2 (observe.reading_of offset_celsius) devices output /\
    length output = length devices /\
    (devices = [] -> output = []).
Proof.
  intros Hall.
  destruct (get_medicion_loop_readable offset_celsius devices [] Hall)
    as (readings & Heq & Hread).
  exists readings. rewrite get_medicion_enumerated, Heq. cbn [trace outcome fst snd app].
  split; [reflexivity|]. split; [exact Hread|].
  split; [symmetry; eapply Forall2_length; exact Hread|].
  intros ->. inversion Hread. reflexivity.
Qed.

(** A readable device followed by a handle without descriptor: two readings,
    in that order. *)
Lemma get_medicion_one_reading_per_device_witness :
  exists output,
    temper_reader.get_medicion
      (Return [samples.device_reading samples.raw_28_512;
               samples.device_without_descriptor samples.raw_30])
      (pyfloat.of_decimal (-614) 2) =
      (EvCall_get_medicion (pyfloat.of_decimal (-614) 2) :: EvGetDevices
         :: map EvGetTemperature [samples.device_reading samples.raw_28_512;
                                  samples.device_without_descriptor samples.raw_30],
       Return output) /\
    Forall2 (observe.reading_of (pyfloat.of_decimal (-614) 2))
      [samples.device_reading samples.raw_28_512;
       samples.device_without_descriptor samples.raw_30] output /\
    length output = length [samples.device_reading samples.raw_28_512;
                            samples.device_without_descriptor samples.raw_30] /\
    ([samples.device_reading samples.raw_28_512;
      samples.device_without_descriptor samples.raw_30] = [] -> output = []).
Proof.
  apply (get_medicion_one_reading_per_device
           [samples.device_reading samples.raw_28_512;
            samples.device_without_descriptor samples.raw_30]
           (pyfloat.of_decimal (-614) 2)).
  repeat constructor; eexists; reflexivity.
Defined.

(** ** The context providers *)

(** [get_system_info] never raises. *)
Lemma get_system_info_outcome (w : world) (use_dynamic_ip : bool) :
  exists system,
    outcome (system_info.get_system_info w use_dynamic_ip) = Return system /\
    system_info.hostname system = gethostname w.
Proof.
  destruct w as [fs fr ab h ip mid node cfg devs nw dbs].
  unfold system_info.get_system_info, system_info.get_hostname, system_info.get_ip,
    system_info.get_machine_id, perform; cbn.
  destruct use_dynamic_ip, ip as [?|?], mid as [?|?], node as [?|?]; cbn;
    eexists; split; reflexivity.
Qed.

(** Its trace: the host name is looked up once, first, and everything else is
    a host lookup too. *)
Lemma get_system_info_trace (w : world) (use_dynamic_ip : bool) :
  exists t,
    trace (system_info.get_system_info w use_dynamic_ip) = EvGetHostname :: t /\
    Forall (fun ev => ev = EvProbeIp \/ ev = EvReadMachineId \/ ev = EvGetNode) t.
Proof.
  destruct w as [fs fr ab h ip mid node cfg devs nw dbs].
  unfold system_info.get_system_info, system_info.get_hostname, system_info.get_ip,
    system_info.get_machine_id, perform; cbn.
  destruct use_dynamic_ip, ip as [?|?], mid as [?|?], node as [?|?]; cbn;
    eexists; (split; [reflexivity|]);
    repeat first [apply Forall_nil_2 | apply Forall_cons_2; [tauto|]].
Qed.

Lemma check_required_keys_present keys (data : gmap string jvalue) full_path :
  Forall (fun key => is_Some (data !! key)) keys ->
  location_info.check_required_keys keys data full_path = Return tt.
Proof.
  induction 1 as [|key rest [v Hv] _ IH]; cbn; [reflexivity|].
  rewrite Hv. exact IH.
Qed.

Lemma check_required_keys_missing keys (data : gmap string jvalue) full_path :
  Exists (fun key => data !! key = None) keys ->
  exists key,
    key ∈ keys /\ data !! key = None /\
    location_info.check_required_keys keys data full_path =
      Raise (KeyError ("Falta la clave '" +:+ key +:+ "' en " +:+ full_path)).
Proof.
  induction keys as [|k rest IH]; intros Hex; [inversion Hex|].
  cbn. destruct (data !! k) as [v|] eqn:Hk.
  - assert (Hrest : Exists (fun key => data !! key = None) rest).
    { inversion Hex; subst; [congruence|assumption]. }
    destruct (IH Hrest) as (key & Hin & Hnone & Heq).
    exists key. repeat split; [right; exact Hin|exact Hnone|exact Heq].
  - exists k. repeat split; [left|exact Hk].
Qed.

Lemma check_required_keys_Return keys (data : gmap string jvalue) full_path :
  location_info.check_required_keys keys data full_path = Return tt ->
  Forall (fun key => is_Some (data !! key)) keys.
Proof.
  induction keys as [|k rest IH]; cbn; [constructor|].
  destruct (data !! k) as [v|] eqn:Hk; [|discriminate].
  intros H. constructor; [eauto|auto].
Qed.

(** The configuration file is opened exactly once, whatever happens next. *)
Lemma get_location_data_trace (w : world) (config_path : string) :
  trace (location_info.get_location_data w config_path) =
  [EvConfigFile (w_abspath w config_path)].
Proof.
  unfold location_info.get_location_data, perform, lift.
  destruct (config_file w (w_abspath w config_path)) as [| |data]; try reflexivity.
  rewrite bind_Return. cbn [app trace outcome fst snd].
  destruct (location_info.check_required_keys _ _ _) as [[]|e]; [|reflexivity].
  rewrite bind_Return. cbn [app trace outcome fst snd].
  destruct (try_except _ _ _) as [d|e]; reflexivity.
Qed.

(** The outcome of [get_location_data] on a parsed document. *)
Lemma get_location_data_outcome (w : world) (config_path : string)
    (data : gmap string jvalue) :
  config_file w (w_abspath w config_path) = FileJson data ->
  outcome (location_info.get_location_data w config_path) =
  match location_info.check_required_keys location_info.required_keys data
          (w_abspath w config_path) with
  | Raise e => Raise e
  | Return _ =>
      match data !! "offset_celsius" with
      | None => Raise (KeyError "offset_celsius")
      | Some v =>
          match location_info.py_float w v with
          | Return f => Return (<["offset_celsius" := JFloat f]> data)
          | Raise e =>
              if is_TypeError_or_ValueError e
              then Raise (ValueError
                            ("El valor de 'offset_celsius' debe ser numérico, se encontró: "
                             +:+ location_info.py_str w v))
              else Raise e
          end
      end
  end.
Proof.
  intros Hcfg. unfold location_info.get_location_data, perform, lift. rewrite Hcfg.
  rewrite bind_Return. cbn [app trace outcome fst snd].
  destruct (location_info.check_required_keys _ _ _) as [[]|e]; [|reflexivity].
  rewrite bind_Return. cbn [app trace outcome fst snd].
  unfold getitem. destruct (data !! "offset_celsius") as [v|]; [|reflexivity].
  cbn. destruct (location_info.py_float w v) as [f|e]; cbn; [reflexivity|].
  destruct (is_TypeError_or_ValueError e); reflexivity.
Qed.

(** What a successful [get_location_data] guarantees about the dict it
    returns. *)
Lemma get_location_data_Return (w : world) (config_path : string)
    (location : gmap string jvalue) :
  outcome (location_info.get_location_data w config_path) = Return location ->
  exists data v f,
    config_file w (w_abspath w config_path) = FileJson data /\
    Forall (fun key => is_Some (data !! key)) location_info.required_keys /\
    data !! "offset_celsius" = Some v /\
    location_info.py_float w v = Return f /\
    location = <["offset_celsius" := JFloat f]> data.
Proof.
  destruct (config_file w (w_abspath w config_path)) as [| |data] eqn:Hcfg.
  - unfold location_info.get_location_data, perform. rewrite Hcfg. discriminate.
  - unfold location_info.get_location_data, perform. rewrite Hcfg. discriminate.
  - rewrite (get_location_data_outcome _ _ _ Hcfg).
    destruct (location_info.check_required_keys _ _ _) as [[]|e] eqn:Hck; [|discriminate].
    destruct (data !! "offset_celsius") as [v|] eqn:Hv; [|discriminate].
    destruct (location_info.py_float w v) as [f|e] eqn:Hf.
    + intros [= <-]. exists data, v, f.
      repeat split; auto. apply (check_required_keys_Return _ _ _ Hck).
    + destruct (is_TypeError_or_ValueError e); discriminate.
Qed.

(** The three labels of a loaded location are those of the document. *)
Lemma location_labels (data : gmap string jvalue) (f : pyfloat.float) :
  Forall (fun key => is_Some (data !! key)) location_info.required_keys ->
  exists u c s,
    data !! "ubicacion" = Some u /\ data !! "cpd" = Some c /\ data !! "sala" = Some s /\
    (<["offset_celsius" := JFloat f]> data) !! "ubicacion" = Some u /\
    (<["offset_celsius" := JFloat f]> data) !! "cpd" = Some c /\
    (<["offset_celsius" := JFloat f]> data) !! "sala" = Some s /\
    (<["offset_celsius" := JFloat f]> data) !! "offset_celsius" = Some (JFloat f).
Proof.
  intros Hkeys. unfold location_info.required_keys in Hkeys.
  inversion Hkeys as [|? ? [u Hu] Hk1]; subst.
  inversion Hk1 as [|? ? [c Hc] Hk2]; subst.
  inversion Hk2 as [|? ? [s Hs] _]; subst.
  exists u, c, s. repeat split; auto; simplify_map_eq; auto.
Qed.

(** The offset of a loaded location is a float: the conversion in [main]
    that hands it to [get_medicion] cannot raise. *)
Lemma offset_of_loaded_location (w : world) (config_path : string)
    (location : gmap string jvalue) :
  outcome (location_info.get_location_data w config_path) = Return location ->
  exists f, getitem location "offset_celsius" ≫= main.as_float = Return f.
Proof.
  intros Hloc.
  destruct (get_location_data_Return w _ _ Hloc) as (data & v & f & _ & _ & _ & _ & ->).
  exists f. unfold getitem. simplify_map_eq. reflexivity.
Qed.

(** ** C2: the delivery sink *)

Ltac unfold_insert_into_db :=
  unfold json_builder.insert_into_db, db_connection.get_db_connection,
    db_connection.load_credentials, perform, lift, getitem, try_exceptM, try_finally,
    mbind, M_bind, mret, M_ret, outcome, trace.

Section delivery_sink.
Import db_connection.

(** With a complete credentials object, [get_db_connection] reaches
    [mariadb.connect] and turns a database error into [None]. *)
Lemma get_db_connection_with_credentials env doc creds :
  credentials_file env = FileJson doc ->
  doc !! "database" = Some creds ->
  Forall (fun k => is_Some (creds !! k)) observe.credential_keys ->
  get_db_connection env =
  match connect env with
  | Return conn =>
      ([EvCredentialsFile (abspath env "config/credenciales.json"); EvConnect],
       Return (Some conn))
  | Raise e =>
      ([EvCredentialsFile (abspath env "config/credenciales.json"); EvConnect],
       if is_MariadbError e then Return None else Raise e)
  end.
Proof.
  intros Hfile Hdb Hkeys. unfold observe.credential_keys in Hkeys.
  inversion Hkeys as [|? ? [v1 H1] Hk1]; subst.
  inversion Hk1 as [|? ? [v2 H2] Hk2]; subst.
  inversion Hk2 as [|? ? [v3 H3] Hk3]; subst.
  inversion Hk3 as [|? ? [v4 H4] Hk4]; subst.
  inversion Hk4 as [|? ? [v5 H5] _]; subst.
  unfold_insert_into_db. rewrite Hfile. unfold getitem. rewrite Hdb, H1, H2, H3, H4, H5. cbn.
  destruct (connect env) as [conn|e]; [reflexivity|].
  destruct (is_MariadbError e); reflexivity.
Qed.

(** Without a readable credentials file the call ends in an exception before
    any connection is tried. *)
Lemma insert_into_db_bad_credentials env p :
  credentials_file env = FileMissing \/ credentials_file env = FileMalformed ->
  exists e,
    json_builder.insert_into_db env p =
      ([EvCall_insert_into_db p;
        EvCredentialsFile (abspath env "config/credenciales.json")], Raise e) /\
    (e = FileNotFoundError ("Credenciales no encontradas: "
                            +:+ abspath env "config/credenciales.json")
     \/ e = JSONDecodeError).
Proof.
  intros [H|H]; unfold_insert_into_db; rewrite H; cbn; eexists; split; eauto.
Qed.

(** [True] comes back only when execute and commit both went through. *)
Lemma insert_into_db_true env p :
  outcome (json_builder.insert_into_db env p) = Return true ->
  exists conn cur t1 t2,
    connect env = Return conn /\ cursor conn = Return cur /\
    execute cur = Return tt /\ commit conn = Return tt /\
    trace (json_builder.insert_into_db env p) = t1 ++ EvExecute p :: EvCommit :: t2.
Proof.
  destruct env as [ab cf cn].
  unfold_insert_into_db; cbn.
  repeat (case_match; simplify_eq; cbn); try discriminate.
  all: intros _.
  all: repeat match goal with u : unit |- _ => destruct u end.
  all: do 2 eexists.
  all: eexists [_; _; _; _], _.
  all: repeat split; try eassumption; try reflexivity.
Qed.

(** The trace of one call: the entry, then database operations for this
    record only. *)
Lemma insert_into_db_trace env p :
  exists t,
    trace (json_builder.insert_into_db env p) = EvCall_insert_into_db p :: t /\
    Forall (observe.db_event_for p) t.
Proof.
  destruct env as [ab cf cn].
  unfold_insert_into_db; cbn.
  repeat (case_match; simplify_eq; cbn).
  all: eexists; (split; [reflexivity|]); repeat constructor.
Qed.

(** The outcome of a call does not depend on the record. *)
Lemma insert_into_db_outcome_payload env p q :
  outcome (json_builder.insert_into_db env p) = outcome (json_builder.insert_into_db env q).
Proof.
  destruct env as [ab cf cn].
  unfold_insert_into_db; cbn.
  repeat (case_match; simplify_eq; cbn); reflexivity.
Qed.

End delivery_sink.

(** C2 (counterexample to the claim as stated): when the credentials file is
    missing, no connection to the store can be established, and
    [insert_into_db] raises [FileNotFoundError] instead of returning
    [False]. *)
Lemma insert_into_db_raises_without_credentials :
  json_builder.insert_into_db samples.db_without_credentials samples.payload_sample =
  ([EvCall_insert_into_db samples.payload_sample;
    EvCredentialsFile "/opt/temper/config/credenciales.json"],
   Raise (FileNotFoundError
            "Credenciales no encontradas: /opt/temper/config/credenciales.json")).
Proof. vm_compute. reflexivity. Qed.

(** C2 (amended): when the credentials load, [insert_into_db] returns [False]
    rather than raising whenever [mariadb.connect] fails with a database
    error, and whenever the execute or the commit fails with a database error
    on a connection whose cursor opens and whose cursor and connection close;
    it returns [True] when execute and commit go through, and only then. *)
Theorem insert_into_db_boolean_outcome
    (env : db_connection.db_env) (p : payload)
    (doc : gmap string (gmap string jvalue)) (creds : gmap string jvalue) :
  db_connection.credentials_file env = FileJson doc ->
  doc !! "database" = Some creds ->
  Forall (fun k => is_Some (creds !! k)) observe.credential_keys ->
  (forall msg,
     db_connection.connect env = Raise (MariadbError msg) ->
     outcome (json_builder.insert_into_db env p) = Return false) /\
  (forall conn cur,
     db_connection.connect env = Return conn ->
     db_connection.cursor conn = Return cur ->
     db_connection.cursor_close cur = Return tt ->
     db_connection.conn_close conn = Return tt ->
     (forall msg,
        db_connection.execute cur = Raise (MariadbError msg) ->
        outcome (json_builder.insert_into_db env p) = Return false) /\
     (forall msg,
        db_connection.execute cur = Return tt ->
        db_connection.commit conn = Raise (MariadbError msg) ->
        outcome (json_builder.insert_into_db env p) = Return false) /\
     (db_connection.execute cur = Return tt ->
      db_connection.commit conn = Return tt ->
      outcome (json_builder.insert_into_db env p) = Return true)) /\
  (outcome (json_builder.insert_into_db env p) = Return true ->
   exists conn cur t1 t2,
     db_connection.connect env = Return conn /\
     db_connection.cursor conn = Return cur /\
     db_connection.execute cur = Return tt /\
     db_connection.commit conn = Return tt /\
     trace (json_builder.insert_into_db env p) = t1 ++ EvExecute p :: EvCommit :: t2).
Proof.
  intros Hfile Hdb Hkeys.
  pose proof (get_db_connection_with_credentials env doc creds Hfile Hdb Hkeys) as Hconn.
  split; [|split].
  - intros msg Hc. unfold json_builder.insert_into_db, perform.
    rewrite bind_Return, Hconn, Hc. reflexivity.
  - intros conn cur Hc Hcur Hcc Hco.
    assert (Hunfold : forall r1 r2,
      db_connection.execute cur = r1 -> db_connection.commit conn = r2 ->
      outcome (json_builder.insert_into_db env p) =
      match r1 with
      | Raise e => if is_MariadbError e then Return false else Raise e
      | Return _ =>
          match r2 with
          | Raise e => if is_MariadbError e then Return false else Raise e
          | Return _ => Return true
          end
      end).
    { intros r1 r2 H1 H2. unfold json_builder.insert_into_db, perform.
      rewrite bind_Return, Hconn, Hc. cbn [trace outcome fst snd].
      rewrite bind_Return. cbn [trace outcome fst snd]. rewrite Hcur.
      rewrite bind_Return. cbn [trace outcome fst snd].
      rewrite Hcc, Hco, H1, H2.
      destruct r1 as [[]|e1]; [destruct r2 as [[]|e2]|]; cbn;
        try reflexivity; first [destruct (is_MariadbError e2)|destruct (is_MariadbError e1)];
        reflexivity. }
    split; [|split].
    + intros msg He. rewrite (Hunfold _ _ He eq_refl). reflexivity.
    + intros msg He Hcm. rewrite (Hunfold _ _ He Hcm). reflexivity.
    + intros He Hcm. rewrite (Hunfold _ _ He Hcm). reflexivity.
  - apply insert_into_db_true.
Qed.

(** An unreachable server and a rejected insert give [False], a committed
    insert gives [True]. *)
Lemma insert_into_db_boolean_outcome_witness :
  outcome (json_builder.insert_into_db samples.db_unreachable samples.payload_sample)
    = Return false /\
  outcome (json_builder.insert_into_db samples.db_rejecting samples.payload_sample)
    = Return false /\
  outcome (json_builder.insert_into_db samples.db_ok samples.payload_sample)
    = Return true.
Proof.
  assert (Hkeys : Forall (fun k => is_Some (samples.creds_ok !! k)) observe.credential_keys).
  { repeat constructor; eexists; vm_compute; reflexivity. }
  split; [|split].
  - apply (proj1 (insert_into_db_boolean_outcome samples.db_unreachable
                    samples.payload_sample samples.credentials_ok samples.creds_ok
                    eq_refl eq_refl Hkeys) "Can't connect to server" eq_refl).
  - apply (proj1 (proj1 (proj2 (insert_into_db_boolean_outcome samples.db_rejecting
                    samples.payload_sample samples.credentials_ok samples.creds_ok
                    eq_refl eq_refl Hkeys))
                   samples.connection_rejecting samples.cursor_rejecting
                   eq_refl eq_refl eq_refl eq_refl) "Data too long" eq_refl).
  - apply (proj2 (proj2 (proj1 (proj2 (insert_into_db_boolean_outcome samples.db_ok
                    samples.payload_sample samples.credentials_ok samples.creds_ok
                    eq_refl eq_refl Hkeys))
                   samples.connection_ok samples.cursor_ok
                   eq_refl eq_refl eq_refl eq_refl)) eq_refl eq_refl).
Defined.

(** ** The orchestrator: [main] *)

(** Observations of a trace that holds none of the observed events. *)
Lemma omap_none_Forall {A B} (f : A -> option B) (P : A -> Prop) (t : list A) :
  (forall x, P x -> f x = None) -> Forall P t -> omap f t = [].
Proof.
  intros HP. induction 1 as [|x t Hx _ IH]; [reflexivity|].
  cbn. rewrite (HP x Hx). exact IH.
Qed.

Ltac no_such_event :=
  match goal with
  | H : Forall ?P ?t |- omap ?f ?t = [] =>
      apply (omap_none_Forall f P t); [|exact H];
      let ev := fresh "ev" in
      intros ev; destruct ev; cbn; try reflexivity; try tauto;
      try (intros; discriminate); intuition discriminate
  end.

Lemma get_medicion_loop_sensor_io offset devices : forall output,
  Forall (fun ev => observe.is_sensor_io ev = true)
    (trace (temper_reader.get_medicion_loop devices offset output)).
Proof.
  induction devices as [|device rest IH]; intros output; [constructor|].
  destruct (get_temperature device) as [t|e] eqn:Ht.
  - destruct (lift_get_device_metadata device) as (md & _ & Hmd).
    rewrite (get_medicion_loop_cons_readable _ _ _ _ _ _ Hmd Ht).
    constructor; [reflexivity|apply IH].
  - rewrite (get_medicion_loop_cons_unreadable _ _ _ _ _ Ht).
    constructor; [reflexivity|constructor].
Qed.

Lemma get_medicion_acquisition enumeration offset :
  Forall (fun ev => observe.is_acquisition ev = true)
    (trace (temper_reader.get_medicion enumeration offset)).
Proof.
  destruct enumeration as [devices|e].
  - rewrite get_medicion_enumerated. cbn [trace fst].
    do 2 (constructor; [reflexivity|]).
    eapply Forall_impl; [apply get_medicion_loop_sensor_io|].
    intros [] H; cbn in *; congruence.
  - unfold temper_reader.get_medicion, perform. rewrite bind_Return. cbn.
    repeat constructor.
Qed.

(** [main] catches everything: it always returns, and an exception of the
    [try] block leaves one last error line. *)
Lemma main_of_body (w : world) :
  main.main w =
  (trace (main.main_body w) ++
     match outcome (main.main_body w) with
     | Return _ => []
     | Raise e => [EvLog ERROR (MsgRunError e)]
     end,
   Return tt).
Proof.
  unfold main.main. rewrite try_exceptM_any.
  destruct (outcome (main.main_body w)) as [[]|e]; cbn; [|reflexivity].
  rewrite app_nil_r. reflexivity.
Qed.

(** The [try] block when the location cannot be loaded. *)
Lemma main_body_no_location (w : world) (e : exn) :
  outcome (location_info.get_location_data w main.config_path) = Raise e ->
  main.main_body w =
  (trace (system_info.get_system_info w true)
     ++ [EvConfigFile (w_abspath w main.config_path)], Raise e).
Proof.
  intros Hloc. unfold main.main_body.
  destruct (get_system_info_outcome w true) as (system & Hsys & _).
  rewrite (M_eta (system_info.get_system_info w true)), Hsys, bind_Return.
  rewrite (M_eta (location_info.get_location_data w _)).
  rewrite Hloc, get_location_data_trace. reflexivity.
Qed.

(** The [try] block when the location is loaded. *)
Lemma main_body_location (w : world) system (location : gmap string jvalue) offset :
  outcome (system_info.get_system_info w true) = Return system ->
  outcome (location_info.get_location_data w main.config_path) = Return location ->
  location !! "offset_celsius" = Some (JFloat offset) ->
  main.main_body w =
  (trace (system_info.get_system_info w true)
     ++ EvConfigFile (w_abspath w main.config_path)
     :: trace (temper_reader.get_medicion (get_devices w) offset)
     ++ match outcome (temper_reader.get_medicion (get_devices w) offset) with
        | Raise _ => []
        | Return [] => [EvLog WARNING MsgNoSensors]
        | Return mediciones => trace (main.delivery_loop w system location 0 mediciones)
        end,
   match outcome (temper_reader.get_medicion (get_devices w) offset) with
   | Raise e => Raise e
   | Return [] => Return tt
   | Return mediciones => outcome (main.delivery_loop w system location 0 mediciones)
   end).
Proof.
  intros Hsys Hloc Hoff. unfold main.main_body.
  rewrite (M_eta (system_info.get_system_info w true)), Hsys, bind_Return.
  rewrite (M_eta (location_info.get_location_data w _)).
  rewrite Hloc, get_location_data_trace, bind_Return.
  unfold lift, getitem. rewrite Hoff, bind_Return. cbn [main.as_float].
  rewrite bind_Return. cbn [app trace outcome fst snd].
  destruct (temper_reader.get_medicion (get_devices w) offset) as [ta [ms|e]];
    cbn [trace outcome fst snd].
  - rewrite bind_Return. destruct ms; reflexivity.
  - rewrite bind_Raise. cbn. rewrite app_nil_r. reflexivity.
Qed.

(** ** The delivery loop *)

Section delivery_loop.
Variable w : world.
Variable system : system_info.system.
Variable location : gmap string jvalue.

(** The record of one sensor, once the location labels are known. *)
Lemma build_payload_Return (i : nat) (sensor : medicion) (u c s : jvalue) :
  location !! "ubicacion" = Some u ->
  location !! "cpd" = Some c ->
  location !! "sala" = Some s ->
  main.build_payload w system location i sensor =
  Return {| fecha_hora := now w i;
            nombre_sensor := dict_get (metadata sensor) "product" (Some "Desconocido"%string);
            numero_serie := dict_get (metadata sensor) "serial_number" None;
            ubicacion := u;
            hostname_maquina := system_info.hostname system;
            ip_maquina := system_info.ip_maquina system;
            id_maquina := system_info.id_maquina system;
            temperatura := pyfloat.round (temperature_c sensor) 2;
            humedad := None;
            bateria := None;
            cpd := c;
            sala := s |}.
Proof.
  intros Hu Hc Hs. unfold main.build_payload, getitem. rewrite Hu, Hc, Hs. reflexivity.
Qed.

(** Whatever [build_payload] returns carries the context it was given. *)
Lemma build_payload_fields (i : nat) (sensor : medicion) (p : payload) :
  main.build_payload w system location i sensor = Return p ->
  location !! "ubicacion" = Some (ubicacion p) /\
  location !! "cpd" = Some (cpd p) /\
  location !! "sala" = Some (sala p) /\
  hostname_maquina p = system_info.hostname system /\
  ip_maquina p = system_info.ip_maquina system /\
  id_maquina p = system_info.id_maquina system /\
  temperatura p = pyfloat.round (temperature_c sensor) 2 /\
  nombre_sensor p = dict_get (metadata sensor) "product" (Some "Desconocido"%string) /\
  numero_serie p = dict_get (metadata sensor) "serial_number" None /\
  humedad p = None /\ bateria p = None.
Proof.
  unfold main.build_payload, getitem.
  destruct (location !! "ubicacion") as [u|]; [|discriminate].
  destruct (location !! "cpd") as [c|]; [|discriminate].
  destruct (location !! "sala") as [s|]; [|discriminate].
  intros [= <-]. cbn. repeat split; reflexivity.
Qed.

(** One iteration of the loop. *)
Lemma delivery_loop_cons (i : nat) (sensor : medicion) (rest : list medicion) (p : payload) :
  main.build_payload w system location i sensor = Return p ->
  main.delivery_loop w system location i (sensor :: rest) =
  (EvLog INFO (MsgPayload p)
     :: trace (json_builder.insert_into_db (db w i) p)
     ++ match outcome (json_builder.insert_into_db (db w i) p) with
        | Raise _ => []
        | Return success =>
            (if success
             then EvLog INFO (MsgInserted (nombre_sensor p) (temperatura p))
             else EvLog ERROR (MsgInsertError (nombre_sensor p)))
            :: trace (main.delivery_loop w system location (S i) rest)
        end,
   match outcome (json_builder.insert_into_db (db w i) p) with
   | Raise e => Raise e
   | Return _ => outcome (main.delivery_loop w system location (S i) rest)
   end).
Proof.
  intros Hp. cbn [main.delivery_loop]. rewrite Hp. unfold lift, logger_info, logger_error, perform.
  rewrite bind_Return. cbn [app]. rewrite bind_Return. cbn [trace outcome fst snd app].
  destruct (json_builder.insert_into_db (db w i) p) as [ti [success|e]];
    cbn [trace outcome fst snd].
  - rewrite bind_Return. destruct success; rewrite bind_Return; reflexivity.
  - rewrite bind_Raise. cbn. rewrite app_nil_r. reflexivity.
Qed.

Lemma delivery_loop_cons_Raise (i : nat) (sensor : medicion) (rest : list medicion) (e : exn) :
  main.build_payload w system location i sensor = Raise e ->
  main.delivery_loop w system location i (sensor :: rest) = ([], Raise e).
Proof. intros Hp. cbn [main.delivery_loop]. rewrite Hp. reflexivity. Qed.

(** The loop does nothing but deliver. *)
Lemma delivery_loop_events (mediciones : list medicion) : forall i,
  Forall (fun ev => observe.is_delivery ev = true)
    (trace (main.delivery_loop w system location i mediciones)).
Proof.
  induction mediciones as [|sensor rest IH]; intros i; [constructor|].
  destruct (main.build_payload w system location i sensor) as [p|e] eqn:Hp.
  - rewrite (delivery_loop_cons _ _ _ _ Hp). cbn [trace fst].
    constructor; [reflexivity|].
    apply Forall_app. split.
    + destruct (insert_into_db_trace (db w i) p) as (t & -> & Ht).
      constructor; [reflexivity|].
      eapply Forall_impl; [exact Ht|]. intros [] H; cbn in *; tauto.
    + destruct (outcome _) as [[]|]; constructor; try reflexivity; apply IH.
  - rewrite (delivery_loop_cons_Raise _ _ _ _ Hp). constructor.
Qed.

#[local] Abbreviation assembled := (observe.assembled w system location).

Lemma assembled_cons sensor rest p : assembled rest p -> assembled (sensor :: rest) p.
Proof. intros (i & s & Hin & Hp). exists i, s. split; [right; exact Hin|exact Hp]. Qed.

Lemma delivery_loop_records (mediciones : list medicion) : forall i,
  Forall (assembled mediciones)
    (observe.logged_payloads (trace (main.delivery_loop w system location i mediciones))) /\
  Forall (assembled mediciones)
    (observe.delivery_attempts (trace (main.delivery_loop w system location i mediciones))) /\
  Forall (assembled mediciones)
    (observe.executed_inserts (trace (main.delivery_loop w system location i mediciones))).
Proof.
  induction mediciones as [|sensor rest IH]; intros i.
  - repeat split; constructor.
  - destruct (main.build_payload w system location i sensor) as [p|e] eqn:Hp.
    + rewrite (delivery_loop_cons _ _ _ _ Hp). cbn [trace fst].
      destruct (insert_into_db_trace (db w i) p) as (t & -> & Ht).
      assert (Hp' : assembled (sensor :: rest) p).
      { exists i, sensor. split; [left|exact Hp]. }
      destruct (IH (S i)) as (IH1 & IH2 & IH3).
      unfold observe.logged_payloads, observe.delivery_attempts, observe.executed_inserts.
      assert (H1 : omap (fun ev => match ev with
                                   | EvLog INFO (MsgPayload p) => Some p | _ => None end) t = []).
      { no_such_event. }
      assert (H2 : omap (fun ev => match ev with
                                   | EvCall_insert_into_db p => Some p | _ => None end) t = []).
      { no_such_event. }
      assert (H3 : Forall (fun v => v = p)
                     (omap (fun ev => match ev with
                                      | EvExecute values => Some values | _ => None end) t)).
      { clear -Ht. induction Ht as [|ev t Hev _ IHt]; [constructor|].
        destruct ev; cbn in *; try exact IHt; try tauto. constructor; [exact Hev|exact IHt]. }
      cbn [app omap list_omap]. rewrite !omap_app, H1, H2. cbn [app].
      repeat split.
      * constructor; [exact Hp'|].
        destruct (outcome _) as [[]|]; cbn; try constructor;
          eapply Forall_impl; try exact IH1; intros; apply assembled_cons; assumption.
      * constructor; [exact Hp'|].
        destruct (outcome _) as [[]|]; cbn; try constructor;
          eapply Forall_impl; try exact IH2; intros; apply assembled_cons; assumption.
      * apply Forall_app. split.
        -- eapply Forall_impl; [exact H3|]. intros ? ->. exact Hp'.
        -- destruct (outcome _) as [[]|]; cbn; try constructor;
             eapply Forall_impl; try exact IH3; intros; apply assembled_cons; assumption.
    + rewrite (delivery_loop_cons_Raise _ _ _ _ Hp). repeat split; constructor.
Qed.

End delivery_loop.

(** ** C1: a failed delivery does not stop the batch *)

Section isolation.
Variable w : world.
Variable system : system_info.system.
Variable location : gmap string jvalue.

(** The loop under a sink that answers with booleans: every reading is
    assembled, logged and handed to the sink, in order, and every [False]
    leaves one failure line. *)
Lemma delivery_loop_boolean_sink (u c s : jvalue) (mediciones : list medicion) :
  location !! "ubicacion" = Some u ->
  location !! "cpd" = Some c ->
  location !! "sala" = Some s ->
  forall (i : nat) (outcomes : list bool),
  length outcomes = length mediciones ->
  (forall k b, outcomes !! k = Some b ->
     forall p, outcome (json_builder.insert_into_db (db w (i + k)) p) = Return b) ->
  exists payloads,
    length payloads = length mediciones /\
    (forall k sensor, mediciones !! k = Some sensor ->
       exists p, payloads !! k = Some p /\
                 main.build_payload w system location (i + k) sensor = Return p) /\
    outcome (main.delivery_loop w system location i mediciones) = Return tt /\
    observe.logged_payloads (trace (main.delivery_loop w system location i mediciones))
      = payloads /\
    observe.delivery_attempts (trace (main.delivery_loop w system location i mediciones))
      = payloads /\
    observe.failure_entries (trace (main.delivery_loop w system location i mediciones))
      = map (fun x => nombre_sensor (fst x))
          (List.filter (fun x => negb (snd x)) (zip payloads outcomes)) /\
    observe.success_entries (trace (main.delivery_loop w system location i mediciones))
      = map (fun x => nombre_sensor (fst x))
          (List.filter (fun x => snd x) (zip payloads outcomes)) /\
    length (observe.failure_entries
              (trace (main.delivery_loop w system location i mediciones)))
      = length (List.filter negb outcomes) /\
    observe.run_errors (trace (main.delivery_loop w system location i mediciones)) = [].
Proof.
  intros Hu Hc Hs.
  induction mediciones as [|sensor rest IH]; intros i outcomes Hlen Hsink.
  - destruct outcomes; [|discriminate]. exists []. cbn.
    repeat split; try reflexivity. intros k sensor Hk. discriminate.
  - destruct outcomes as [|b outcomes]; [discriminate|].
    pose proof (build_payload_Return w system location i sensor u c s Hu Hc Hs) as Hp.
    set (p := {| fecha_hora := now w i |}) in Hp.
    destruct (IH (S i) outcomes) as (payloads & Hl & Hbuild & Hout & H1 & H2 & H3 & H4 & H5 & H6).
    { cbn in Hlen. lia. }
    { intros k b' Hk q. replace (S i + k)%nat with (i + S k)%nat by lia.
      apply Hsink. exact Hk. }
    assert (Hb : outcome (json_builder.insert_into_db (db w i) p) = Return b).
    { replace i with (i + 0)%nat at 1 by lia. apply Hsink. reflexivity. }
    exists (p :: payloads).
    rewrite (delivery_loop_cons _ _ _ _ _ _ _ Hp), Hb. cbn [trace outcome fst snd].
    destruct (insert_into_db_trace (db w i) p) as (t & -> & Ht).
    unfold observe.logged_payloads, observe.delivery_attempts, observe.failure_entries,
      observe.success_entries, observe.run_errors in *.
    cbn [app omap list_omap]. rewrite !omap_app.
    assert (T1 : omap (fun ev => match ev with
                                 | EvLog INFO (MsgPayload p) => Some p | _ => None end) t = [])
      by no_such_event.
    assert (T2 : omap (fun ev => match ev with
                                 | EvCall_insert_into_db p => Some p | _ => None end) t = [])
      by no_such_event.
    assert (T3 : omap (fun ev => match ev with
                                 | EvLog ERROR (MsgInsertError n) => Some n | _ => None end) t = [])
      by no_such_event.
    assert (T4 : omap (fun ev => match ev with
                                 | EvLog INFO (MsgInserted n _) => Some n | _ => None end) t = [])
      by no_such_event.
    assert (T5 : omap (fun ev => match ev with
                                 | EvLog ERROR (MsgRunError e) => Some e | _ => None end) t = [])
      by no_such_event.
    rewrite T1, T2, T3, T4, T5. cbn [app].
    split; [cbn; lia|]. split.
    { intros [|k] sensor' Hk.
      - injection Hk as <-. exists p. split; [reflexivity|].
        replace (i + 0)%nat with i by lia. exact Hp.
      - destruct (Hbuild k sensor' Hk) as (q & Hq & Hbq). exists q. split; [exact Hq|].
        replace (i + S k)%nat with (S i + k)%nat by lia. exact Hbq. }
    split; [exact Hout|].
    destruct b; cbn [omap list_omap zip zip_with List.filter snd fst negb map length];
      rewrite ?H5, ?H1, ?H2, ?H3, ?H4, ?H6; repeat split; reflexivity.
Qed.

End isolation.

(** ** Runs of [main] *)

Lemma get_system_info_context (w : world) (use_dynamic_ip : bool) :
  Forall (fun ev => observe.is_context_capture ev = true)
    (trace (system_info.get_system_info w use_dynamic_ip)).
Proof.
  destruct (get_system_info_trace w use_dynamic_ip) as (t & -> & Ht).
  constructor; [reflexivity|].
  eapply Forall_impl; [exact Ht|]. intros ev [->|[->| ->]]; reflexivity.
Qed.

(** The trace of a run whose location cannot be loaded. *)
Lemma main_trace_no_location (w : world) (e : exn) :
  outcome (location_info.get_location_data w main.config_path) = Raise e ->
  trace (main.main w) =
  trace (system_info.get_system_info w true)
    ++ [EvConfigFile (w_abspath w main.config_path); EvLog ERROR (MsgRunError e)].
Proof.
  intros Hloc. rewrite main_of_body, (main_body_no_location w e Hloc).
  cbn [trace outcome fst snd]. rewrite <- app_assoc. reflexivity.
Qed.

(** The trace of a run whose location is loaded. *)
Lemma main_trace_location (w : world) system (location : gmap string jvalue) offset :
  outcome (system_info.get_system_info w true) = Return system ->
  outcome (location_info.get_location_data w main.config_path) = Return location ->
  location !! "offset_celsius" = Some (JFloat offset) ->
  trace (main.main w) =
  trace (system_info.get_system_info w true)
    ++ EvConfigFile (w_abspath w main.config_path)
    :: trace (temper_reader.get_medicion (get_devices w) offset)
    ++ match outcome (temper_reader.get_medicion (get_devices w) offset) with
       | Raise e => [EvLog ERROR (MsgRunError e)]
       | Return [] => [EvLog WARNING MsgNoSensors]
       | Return mediciones =>
           trace (main.delivery_loop w system location 0 mediciones)
           ++ match outcome (main.delivery_loop w system location 0 mediciones) with
              | Raise e => [EvLog ERROR (MsgRunError e)]
              | Return _ => []
              end
       end.
Proof.
  intros Hsys Hloc Hoff.
  rewrite main_of_body, (main_body_location w system location offset Hsys Hloc Hoff).
  cbn [trace outcome fst snd]. rewrite <- app_assoc. cbn [app]. rewrite <- app_assoc.
  destruct (outcome (temper_reader.get_medicion (get_devices w) offset)) as [[|m ms]|e];
    reflexivity.
Qed.

(** An observation that ignores context capture and acquisition sees only
    what follows them. *)
Lemma omap_after_acquisition {B} (f : event -> option B) (w : world) offset (t : list event) :
  (forall ev, observe.is_context_capture ev = true -> f ev = None) ->
  (forall ev, observe.is_acquisition ev = true -> f ev = None) ->
  omap f (trace (system_info.get_system_info w true)
            ++ EvConfigFile (w_abspath w main.config_path)
            :: trace (temper_reader.get_medicion (get_devices w) offset) ++ t)
  = omap f t.
Proof.
  intros Hctx Hacq. rewrite omap_app. cbn [omap list_omap].
  rewrite (Hctx (EvConfigFile _) eq_refl), omap_app.
  rewrite (omap_none_Forall f _ _ Hctx (get_system_info_context w true)).
  rewrite (omap_none_Forall f _ _ Hacq (get_medicion_acquisition _ _)).
  reflexivity.
Qed.

Ltac ignores_prefix :=
  let ev := fresh "ev" in
  intros ev; destruct ev; cbn; first [reflexivity | discriminate].

(** C1: when the context is loaded, the acquisition returns [mediciones] and
    the k-th call of the delivery sink answers the boolean [outcomes !! k],
    [main] assembles, logs and hands to the sink one record per reading, in
    order, whatever the pattern of booleans; every [False] leaves exactly one
    failure line, and the run is not aborted. *)
Theorem delivery_failure_does_not_stop_the_batch
    (w : world) (location : gmap string jvalue) (offset : pyfloat.float)
    (mediciones : list medicion) (outcomes : list bool) :
  outcome (location_info.get_location_data w main.config_path) = Return location ->
  location !! "offset_celsius" = Some (JFloat offset) ->
  outcome (temper_reader.get_medicion (get_devices w) offset) = Return mediciones ->
  length outcomes = length mediciones ->
  (forall k b, outcomes !! k = Some b ->
     forall p, outcome (json_builder.insert_into_db (db w k) p) = Return b) ->
  exists system payloads,
    outcome (system_info.get_system_info w true) = Return system /\
    length payloads = length mediciones /\
    (forall k sensor, mediciones !! k = Some sensor ->
       exists p, payloads !! k = Some p /\
                 main.build_payload w system location k sensor = Return p) /\
    outcome (main.main w) = Return tt /\
    observe.logged_payloads (trace (main.main w)) = payloads /\
    observe.delivery_attempts (trace (main.main w)) = payloads /\
    observe.failure_entries (trace (main.main w))
      = map (fun x => nombre_sensor (fst x))
          (List.filter (fun x => negb (snd x)) (zip payloads outcomes)) /\
    observe.success_entries (trace (main.main w))
      = map (fun x => nombre_sensor (fst x))
          (List.filter (fun x => snd x) (zip payloads outcomes)) /\
    length (observe.failure_entries (trace (main.main w)))
      = length (List.filter negb outcomes) /\
    observe.run_errors (trace (main.main w)) = [].
Proof.
  intros Hloc Hoff Hacq Hlen Hsink.
  destruct (get_system_info_outcome w true) as (system & Hsys & _).
  destruct (get_location_data_Return w _ _ Hloc) as (data & v & f & _ & Hkeys & _ & _ & ->).
  destruct (location_labels data f Hkeys) as (u & c & s & _ & _ & _ & Hu & Hc & Hs & _).
  destruct (delivery_loop_boolean_sink w system _ u c s mediciones Hu Hc Hs 0 outcomes Hlen Hsink)
    as (payloads & Hl & Hbuild & Hout & H1 & H2 & H3 & H4 & H5 & H6).
  exists system, payloads.
  rewrite (main_trace_location w system _ offset Hsys Hloc Hoff), Hacq.
  unfold observe.logged_payloads, observe.delivery_attempts, observe.failure_entries,
    observe.success_entries, observe.run_errors in *.
  rewrite !omap_after_acquisition by ignores_prefix.
  split; [exact Hsys|]. split; [exact Hl|]. split; [exact Hbuild|].
  split; [rewrite main_of_body; reflexivity|].
  destruct mediciones as [|m ms].
  - destruct payloads; [|discriminate]. destruct outcomes; [|discriminate].
    cbn. repeat split; reflexivity.
  - rewrite Hout, app_nil_r. rewrite H5, H1, H2, H3, H4, H6. repeat split; reflexivity.
Qed.
(** Three readings, the second delivery fails: three records are logged and
    handed to the sink, and one failure line is written. *)
Lemma delivery_failure_does_not_stop_the_batch_witness :
  length (observe.delivery_attempts (trace (main.main samples.world_second_delivery_fails))) = 3%nat /\
  length (observe.logged_payloads (trace (main.main samples.world_second_delivery_fails))) = 3%nat /\
  length (observe.failure_entries (trace (main.main samples.world_second_delivery_fails))) = 1%nat /\
  observe.run_errors (trace (main.main samples.world_second_delivery_fails)) = [].
Proof.
  destruct (delivery_failure_does_not_stop_the_batch
              samples.world_second_delivery_fails samples.location_ok samples.offset_sample
              [samples.medicion_of samples.raw_28_512; samples.medicion_of samples.raw_30;
               samples.medicion_of samples.raw_28_512]
              [true; false; true])
    as (system & payloads & _ & Hl & _ & _ & H1 & H2 & _ & _ & H5 & H6).
  - vm_compute. reflexivity.
  - vm_compute. reflexivity.
  - vm_compute. reflexivity.
  - reflexivity.
  - intros [|[|[|k]]] b Hk p; cbn in Hk; try discriminate; injection Hk as <-;
      vm_compute; reflexivity.
  - rewrite H1, H2, H5, Hl, H6. repeat split; reflexivity.
Defined.
(** ** C7: an invalid location configuration *)

Lemma keys_present_or_missing (keys : list string) (data : gmap string jvalue) :
  Forall (fun key => is_Some (data !! key)) keys \/
  Exists (fun key => data !! key = None) keys.
Proof.
  induction keys as [|k rest [IH|IH]].
  - left. constructor.
  - destruct (data !! k) as [v|] eqn:Hk.
    + left. constructor; [rewrite Hk; eauto|exact IH].
    + right. left. exact Hk.
  - right. right. exact IH.
Qed.

(** [float()] raises nothing but [TypeError], [ValueError] and
    [OverflowError]. *)
Lemma py_float_Raise (w : world) (v : jvalue) (e : exn) :
  location_info.py_float w v = Raise e ->
  is_TypeError_or_ValueError e = true \/ e = OverflowError.
Proof.
  destruct v as [|b|n|f|s|r]; cbn; try discriminate.
  - intros [= <-]. left. reflexivity.
  - destruct (pyfloat.is_finite _); [discriminate|]. intros [= <-]. right. reflexivity.
  - destruct (float_of_str w s); [discriminate|]. intros [= <-]. left. reflexivity.
  - intros [= <-]. left. reflexivity.
Qed.

(** C7: when the location configuration lacks one of the required keys, or
    its [offset_celsius] cannot be converted to a float, the run ends with one
    error line right after the configuration is read: [get_medicion] is never
    called, no device is enumerated or read, nothing is delivered.  For a
    missing key the error is the [KeyError] whose message names that key; for
    an offset that is not a number it is the [ValueError] about
    'offset_celsius' (or the [OverflowError] of an integer too large for a
    float). *)
Theorem invalid_location_config_is_fatal (w : world) (data : gmap string jvalue) :
  config_file w (w_abspath w main.config_path) = FileJson data ->
  (Exists (fun key => data !! key = None) location_info.required_keys \/
   exists v e, data !! "offset_celsius" = Some v /\ location_info.py_float w v = Raise e) ->
  exists e,
    trace (main.main w) =
      trace (system_info.get_system_info w true)
        ++ [EvConfigFile (w_abspath w main.config_path); EvLog ERROR (MsgRunError e)] /\
    outcome (main.main w) = Return tt /\
    Forall (fun ev => observe.is_acquisition ev = false) (trace (main.main w)) /\
    observe.delivery_attempts (trace (main.main w)) = [] /\
    (Exists (fun key => data !! key = None) location_info.required_keys ->
     exists key,
       key ∈ location_info.required_keys /\ data !! key = None /\
       e = KeyError ("Falta la clave '" +:+ key +:+ "' en "
                     +:+ w_abspath w main.config_path)) /\
    (Forall (fun key => is_Some (data !! key)) location_info.required_keys ->
     exists v,
       data !! "offset_celsius" = Some v /\
       (e = ValueError ("El valor de 'offset_celsius' debe ser numérico, se encontró: "
                        +:+ location_info.py_str w v)
        \/ e = OverflowError)).
Proof.
  intros Hcfg Hbad.
  assert (Hshape : forall e,
    outcome (location_info.get_location_data w main.config_path) = Raise e ->
    trace (main.main w) =
      trace (system_info.get_system_info w true)
        ++ [EvConfigFile (w_abspath w main.config_path); EvLog ERROR (MsgRunError e)] /\
    outcome (main.main w) = Return tt /\
    Forall (fun ev => observe.is_acquisition ev = false) (trace (main.main w)) /\
    observe.delivery_attempts (trace (main.main w)) = []).
  { intros e He. rewrite (main_trace_no_location w e He).
    split; [reflexivity|]. split; [rewrite main_of_body; reflexivity|].
    pose proof (get_system_info_context w true) as Hctx. split.
    - apply Forall_app. split.
      + eapply Forall_impl; [exact Hctx|]. intros [] H; cbn in *; congruence.
      + repeat constructor.
    - unfold observe.delivery_attempts. rewrite omap_app. cbn.
      rewrite app_nil_r. no_such_event. }
  pose proof (get_location_data_outcome w main.config_path data Hcfg) as Hout.
  destruct (keys_present_or_missing location_info.required_keys data) as [Hall|Hex].
  - (* every key is there: the offset is the problem *)
    destruct Hbad as [Hex|(v & e0 & Hv & Hf)].
    { exfalso. apply Exists_exists in Hex as (k & Hin & Hnone).
      rewrite Forall_forall in Hall. destruct (Hall k Hin) as [x Hx]. congruence. }
    rewrite (check_required_keys_present _ _ _ Hall), Hv, Hf in Hout.
    destruct (py_float_Raise w v e0 Hf) as [Hte| ->].
    + rewrite Hte in Hout. eexists. split_and!; try apply (Hshape _ Hout).
      * intros Hex. exfalso. apply Exists_exists in Hex as (k & Hin & Hnone).
        rewrite Forall_forall in Hall. destruct (Hall k Hin) as [x Hx]. congruence.
      * intros _. exists v. split; [exact Hv|]. left. reflexivity.
    + cbn in Hout. eexists. split_and!; try apply (Hshape _ Hout).
      * intros Hex. exfalso. apply Exists_exists in Hex as (k & Hin & Hnone).
        rewrite Forall_forall in Hall. destruct (Hall k Hin) as [x Hx]. congruence.
      * intros _. exists v. split; [exact Hv|]. right. reflexivity.
  - (* a key is missing *)
    destruct (check_required_keys_missing _ data (w_abspath w main.config_path) Hex)
      as (key & Hin & Hnone & Hck).
    rewrite Hck in Hout. eexists. split_and!; try apply (Hshape _ Hout).
    + intros _. exists key. split_and!; [exact Hin|exact Hnone|reflexivity].
    + intros Hall. exfalso. rewrite Forall_forall in Hall.
      destruct (Hall key Hin) as [x Hx]. congruence.
Qed.

(** A configuration without [offset_celsius], and one whose [offset_celsius]
    is [null]: no acquisition, no delivery. *)
Lemma invalid_location_config_is_fatal_witness :
  (observe.delivery_attempts (trace (main.main samples.world_without_offset)) = [] /\
   Forall (fun ev => observe.is_acquisition ev = false)
     (trace (main.main samples.world_without_offset)) /\
   outcome (main.main samples.world_without_offset) = Return tt) /\
  (observe.delivery_attempts (trace (main.main samples.world_offset_null)) = [] /\
   Forall (fun ev => observe.is_acquisition ev = false)
     (trace (main.main samples.world_offset_null)) /\
   outcome (main.main samples.world_offset_null) = Return tt).
Proof.
  split.
  - destruct (invalid_location_config_is_fatal samples.world_without_offset
                samples.config_without_offset eq_refl)
      as (e & _ & Hout & Hacq & Hdel & _).
    + left. unfold location_info.required_keys.
      do 3 apply Exists_cons_tl. apply Exists_cons_hd. vm_compute. reflexivity.
    + split_and!; assumption.
  - destruct (invalid_location_config_is_fatal samples.world_offset_null
                samples.config_offset_null eq_refl)
      as (e & _ & Hout & Hacq & Hdel & _).
    + right. exists JNull, TypeError. split; [vm_compute; reflexivity|reflexivity].
    + split_and!; assumption.
Defined.

(** ** When acquisition returns, and when it does not *)

Lemma readable_or_unreadable (devices : list temper_device) :
  Forall observe.readable devices \/ Exists observe.unreadable devices.
Proof.
  induction devices as [|d rest [IH|IH]].
  - left. constructor.
  - destruct (get_temperature d) as [t|e] eqn:Ht.
    + left. constructor; [exists t; exact Ht|exact IH].
    + right. left. exists e. exact Ht.
  - right. right. exact IH.
Qed.

(** If [get_medicion] returns, the enumeration succeeded, every device could
    be read, and the list holds the readings of the devices in order. *)
Lemma get_medicion_Return enumeration offset (mediciones : list medicion) :
  outcome (temper_reader.get_medicion enumeration offset) = Return mediciones ->
  exists devices,
    enumeration = Return devices /\
    Forall observe.readable devices /\
    Forall2 (observe.reading_of offset) devices mediciones /\
    trace (temper_reader.get_medicion enumeration offset) =
      EvCall_get_medicion offset :: EvGetDevices :: map EvGetTemperature devices.
Proof.
  destruct enumeration as [devices|e]; [|discriminate].
  intros Hret. exists devices. split; [reflexivity|].
  destruct (readable_or_unreadable devices) as [Hall|Hex].
  - destruct (get_medicion_loop_readable offset devices [] Hall) as (output & Heq & Hread).
    rewrite get_medicion_enumerated, Heq in Hret |- *. cbn in Hret.
    injection Hret as <-. auto.
  - exfalso.
    destruct (get_medicion_loop_unreadable offset devices [] Hex)
      as (e & d & t & _ & _ & Heq & _).
    rewrite get_medicion_enumerated, Heq in Hret. discriminate.
Qed.

(** ** C8: the credentials file *)

(** C8 (counterexample to the claim as stated): with one sensor attached and
    the credentials file missing, the device is enumerated and its
    temperature is read before the missing file is noticed; and with no
    sensor attached the missing file is not noticed at all: the run ends
    with the "no sensors" warning and no error. *)
Lemma missing_credentials_noticed_after_sensor_io :
  db_connection.credentials_file (db samples.world_without_credentials 0) = FileMissing /\
  List.filter observe.is_sensor_io (trace (main.main samples.world_without_credentials))
    = [EvGetDevices; EvGetTemperature (samples.device_reading samples.raw_28_512)] /\
  observe.run_errors (trace (main.main samples.world_without_credentials))
    = [FileNotFoundError
         "Credenciales no encontradas: /opt/temper/config/credenciales.json"] /\
  db_connection.credentials_file (db samples.world_no_sensor_no_credentials 0) = FileMissing /\
  observe.run_errors (trace (main.main samples.world_no_sensor_no_credentials)) = [] /\
  last (trace (main.main samples.world_no_sensor_no_credentials))
    = Some (EvLog WARNING MsgNoSensors).
Proof. vm_compute. repeat split; reflexivity. Qed.

(** C8 (amended): when the credentials file is missing or is not valid JSON,
    the failure surfaces at the first delivery, after the devices have been
    enumerated and read: [insert_into_db] raises on opening the file, the
    guard of [main] logs the error, and the run ends with that one delivery
    attempt, no connection and nothing inserted.  When no sensor is detected
    the credentials file is never opened and the run ends with the warning. *)
Theorem bad_credentials_end_the_run_at_first_delivery
    (w : world) (location : gmap string jvalue) (offset : pyfloat.float) :
  (db_connection.credentials_file (db w 0) = FileMissing \/
   db_connection.credentials_file (db w 0) = FileMalformed) ->
  outcome (location_info.get_location_data w main.config_path) = Return location ->
  location !! "offset_celsius" = Some (JFloat offset) ->
  (forall sensor rest,
     outcome (temper_reader.get_medicion (get_devices w) offset) = Return (sensor :: rest) ->
     exists system p e devices,
       outcome (system_info.get_system_info w true) = Return system /\
       main.build_payload w system location 0 sensor = Return p /\
       get_devices w = Return devices /\
       length devices = S (length rest) /\
       trace (main.main w) =
         trace (system_info.get_system_info w true)
           ++ EvConfigFile (w_abspath w main.config_path)
           :: (EvCall_get_medicion offset :: EvGetDevices :: map EvGetTemperature devices)
           ++ [EvLog INFO (MsgPayload p);
               EvCall_insert_into_db p;
               EvCredentialsFile
                 (db_connection.abspath (db w 0) "config/credenciales.json");
               EvLog ERROR (MsgRunError e)] /\
       (e = FileNotFoundError
              ("Credenciales no encontradas: "
               +:+ db_connection.abspath (db w 0) "config/credenciales.json")
        \/ e = JSONDecodeError) /\
       observe.delivery_attempts (trace (main.main w)) = [p] /\
       observe.executed_inserts (trace (main.main w)) = [] /\
       observe.run_errors (trace (main.main w)) = [e]) /\
  (outcome (temper_reader.get_medicion (get_devices w) offset) = Return [] ->
   exists system,
     outcome (system_info.get_system_info w true) = Return system /\
     trace (main.main w) =
       trace (system_info.get_system_info w true)
         ++ EvConfigFile (w_abspath w main.config_path)
         :: [EvCall_get_medicion offset; EvGetDevices]
         ++ [EvLog WARNING MsgNoSensors] /\
     observe.run_errors (trace (main.main w)) = []).
Proof.
  intros Hcred Hloc Hoff.
  destruct (get_system_info_outcome w true) as (system & Hsys & _).
  pose proof (main_trace_location w system location offset Hsys Hloc Hoff) as Htrace.
  split.
  - intros sensor rest Hacq.
    destruct (get_medicion_Return _ _ _ Hacq) as (devices & Hdev & _ & Hread & Hta).
    destruct (get_location_data_Return w _ _ Hloc) as (data & v & f & _ & Hkeys & _ & _ & ->).
    destruct (location_labels data f Hkeys) as (u & c & s & _ & _ & _ & Hu & Hc & Hs & _).
    pose proof (build_payload_Return w system _ 0 sensor u c s Hu Hc Hs) as Hp.
    set (p := {| fecha_hora := now w 0 |}) in Hp.
    destruct (insert_into_db_bad_credentials (db w 0) p Hcred) as (e & Hins & He).
    exists system, p, e, devices.
    rewrite Hacq in Htrace.
    rewrite (delivery_loop_cons _ _ _ _ _ _ _ Hp), Hins in Htrace.
    cbn [trace outcome fst snd app] in Htrace.
    rewrite Hta in Htrace. rewrite Htrace.
    split_and!; try assumption; try reflexivity.
    + apply Forall2_length in Hread. cbn in Hread. exact Hread.
    + rewrite <- Hta. unfold observe.delivery_attempts.
      rewrite omap_after_acquisition by ignores_prefix. reflexivity.
    + rewrite <- Hta. unfold observe.executed_inserts.
      rewrite omap_after_acquisition by ignores_prefix. reflexivity.
    + rewrite <- Hta. unfold observe.run_errors.
      rewrite omap_after_acquisition by ignores_prefix. reflexivity.
  - intros Hacq.
    destruct (get_medicion_Return _ _ _ Hacq) as (devices & Hdev & _ & Hread & Hta).
    inversion Hread; subst.
    exists system. rewrite Hacq in Htrace. rewrite Htrace.
    split; [exact Hsys|]. split; [rewrite Hta; reflexivity|].
    unfold observe.run_errors. rewrite omap_after_acquisition by ignores_prefix. reflexivity.
Qed.

(** One sensor and no credentials file: one delivery attempt, nothing
    inserted. *)
Lemma bad_credentials_end_the_run_at_first_delivery_witness :
  length (observe.delivery_attempts (trace (main.main samples.world_without_credentials)))
    = 1%nat /\
  observe.executed_inserts (trace (main.main samples.world_without_credentials)) = [].
Proof.
  destruct (bad_credentials_end_the_run_at_first_delivery
              samples.world_without_credentials samples.location_ok samples.offset_sample)
    as [Hfirst _].
  - left. reflexivity.
  - vm_compute. reflexivity.
  - vm_compute. reflexivity.
  - destruct (Hfirst (samples.medicion_of samples.raw_28_512) [])
      as (system & p & e & devices & _ & _ & _ & _ & _ & _ & Hdel & Hexe & _).
    + vm_compute. reflexivity.
    + rewrite Hdel, Hexe. split; reflexivity.
Defined.

(** ** C9: one context snapshot for all records *)

Lemma omap_context_then_error {B} (f : event -> option B) (w : world) (e : exn) :
  (forall ev, observe.is_context_capture ev = true -> f ev = None) ->
  omap f (trace (system_info.get_system_info w true)
            ++ [EvConfigFile (w_abspath w main.config_path); EvLog ERROR (MsgRunError e)])
  = omap f [EvLog ERROR (MsgRunError e)].
Proof.
  intros Hctx. rewrite omap_app.
  rewrite (omap_none_Forall f _ _ Hctx (get_system_info_context w true)).
  cbn [app omap list_omap]. rewrite (Hctx (EvConfigFile _) eq_refl). reflexivity.
Qed.

Lemma assembled_carries_context (w : world) system (location : gmap string jvalue)
    (u c s : jvalue) (mediciones : list medicion) (p : payload) :
  location !! "ubicacion" = Some u ->
  location !! "cpd" = Some c ->
  location !! "sala" = Some s ->
  observe.assembled w system location mediciones p ->
  observe.carries_context system u c s p.
Proof.
  intros Hu Hc Hs (i & sensor & _ & Hp).
  destruct (build_payload_fields w system location i sensor p Hp)
    as (Hu' & Hc' & Hs' & ? & ? & ? & _ & _ & _ & ? & ?).
  unfold observe.carries_context. split_and!; try assumption; congruence.
Qed.

(** After the host lookups and the read of the configuration, a run captures
    no context again. *)
Lemma delivery_is_not_context (t : list event) :
  Forall (fun ev => observe.is_delivery ev = true) t ->
  Forall (fun ev => observe.is_context_capture ev = false) t.
Proof. intros H. eapply Forall_impl; [exact H|]. intros [] H'; cbn in *; congruence. Qed.

Lemma acquisition_is_not_context (t : list event) :
  Forall (fun ev => observe.is_acquisition ev = true) t ->
  Forall (fun ev => observe.is_context_capture ev = false) t.
Proof. intros H. eapply Forall_impl; [exact H|]. intros [] H'; cbn in *; congruence. Qed.

(** C9: in every run the host context and the location labels are captured
    once, at the start, and every record of the run (logged, handed to the
    sink, or inserted) carries that one snapshot: the same ubicacion,
    hostname_maquina, ip_maquina, id_maquina, cpd and sala, and no humidity or
    battery value.  Only fecha_hora, nombre_sensor, numero_serie and
    temperatura can differ between two records of a run. *)
Theorem records_share_one_context_snapshot (w : world) :
  exists system u c s,
    outcome (system_info.get_system_info w true) = Return system /\
    (forall location,
       outcome (location_info.get_location_data w main.config_path) = Return location ->
       location !! "ubicacion" = Some u /\ location !! "cpd" = Some c /\
       location !! "sala" = Some s) /\
    Forall (observe.carries_context system u c s)
      (observe.logged_payloads (trace (main.main w))) /\
    Forall (observe.carries_context system u c s)
      (observe.delivery_attempts (trace (main.main w))) /\
    Forall (observe.carries_context system u c s)
      (observe.executed_inserts (trace (main.main w))) /\
    exists rest,
      trace (main.main w) =
        trace (system_info.get_system_info w true)
          ++ EvConfigFile (w_abspath w main.config_path) :: rest /\
      Forall (fun ev => observe.is_context_capture ev = false) rest.
Proof.
  destruct (get_system_info_outcome w true) as (system & Hsys & _).
  destruct (outcome (location_info.get_location_data w main.config_path))
    as [location|e] eqn:Hloc.
  - destruct (get_location_data_Return w _ _ Hloc) as (data & v & f & _ & Hkeys & _ & _ & ->).
    destruct (location_labels data f Hkeys) as (u & c & s & _ & _ & _ & Hu & Hc & Hs & Hoff).
    set (location := <["offset_celsius" := JFloat f]> data) in *.
    exists system, u, c, s.
    split; [exact Hsys|]. split; [intros ? [= <-]; auto|].
    rewrite (main_trace_location w system location f Hsys Hloc Hoff).
    unfold observe.logged_payloads, observe.delivery_attempts, observe.executed_inserts.
    rewrite !omap_after_acquisition by ignores_prefix.
    pose proof (get_medicion_acquisition (get_devices w) f) as Hacq.
    destruct (outcome (temper_reader.get_medicion (get_devices w) f)) as [[|m ms]|e].
    + cbn. split_and!; try constructor.
      eexists. split; [reflexivity|].
      apply Forall_app. split; [apply acquisition_is_not_context, Hacq|repeat constructor].
    + destruct (delivery_loop_records w system location (m :: ms) 0) as (R1 & R2 & R3).
      pose proof (delivery_loop_events w system location (m :: ms) 0) as Hev.
      unfold observe.logged_payloads, observe.delivery_attempts, observe.executed_inserts
        in R1, R2, R3.
      assert (Hlast : forall {B} (g : event -> option B),
                (forall e, g (EvLog ERROR (MsgRunError e)) = None) ->
                omap g match outcome (main.delivery_loop w system location 0 (m :: ms)) with
                       | Return _ => []
                       | Raise e => [EvLog ERROR (MsgRunError e)]
                       end = []).
      { intros B g Hg.
        destruct (outcome (main.delivery_loop w system location 0 (m :: ms)));
          [reflexivity|]. cbn. rewrite Hg. reflexivity. }
      rewrite !omap_app, !Hlast, !app_nil_r by reflexivity.
      split_and!.
      * eapply Forall_impl; [exact R1|]. intros p. apply assembled_carries_context; assumption.
      * eapply Forall_impl; [exact R2|]. intros p. apply assembled_carries_context; assumption.
      * eapply Forall_impl; [exact R3|]. intros p. apply assembled_carries_context; assumption.
      * eexists. split; [reflexivity|].
        apply Forall_app. split; [apply acquisition_is_not_context, Hacq|].
        apply Forall_app. split; [apply delivery_is_not_context, Hev|].
        destruct (outcome (main.delivery_loop w system location 0 (m :: ms)));
          repeat constructor.
    + cbn. split_and!; try constructor.
      eexists. split; [reflexivity|].
      apply Forall_app. split; [apply acquisition_is_not_context, Hacq|repeat constructor].
  - exists system, JNull, JNull, JNull.
    split; [exact Hsys|]. split; [intros ? [=]|].
    rewrite (main_trace_no_location w e Hloc).
    unfold observe.logged_payloads, observe.delivery_attempts, observe.executed_inserts.
    rewrite !omap_context_then_error by ignores_prefix.
    cbn. split_and!; try constructor.
    eexists. split; [reflexivity|]. repeat constructor.
Qed.

(** ** C10: acquisition is all-or-nothing *)

(** C10: when the temperature of one of the enumerated devices cannot be
    read, [get_medicion] raises that exception and returns no reading, also
    none of the devices enumerated before the failing one; [main] then logs
    one error and hands no record to the sink: nothing is logged as a payload,
    delivered or inserted in that run. *)
Theorem unreadable_device_aborts_the_run (w : world) (devices : list temper_device) :
  get_devices w = Return devices ->
  Exists observe.unreadable devices ->
  (forall offset, exists e device,
     device ∈ devices /\ get_temperature device = Raise e /\
     outcome (temper_reader.get_medicion (Return devices) offset) = Raise e) /\
  observe.logged_payloads (trace (main.main w)) = [] /\
  observe.delivery_attempts (trace (main.main w)) = [] /\
  observe.executed_inserts (trace (main.main w)) = [] /\
  outcome (main.main w) = Return tt /\
  exists e,
    observe.run_errors (trace (main.main w)) = [e] /\
    (forall location,
       outcome (location_info.get_location_data w main.config_path) = Return location ->
       exists device, device ∈ devices /\ get_temperature device = Raise e).
Proof.
  intros Hdev Hex.
  assert (Hacq : forall offset, exists e device,
            device ∈ devices /\ get_temperature device = Raise e /\
            outcome (temper_reader.get_medicion (Return devices) offset) = Raise e).
  { intros offset.
    destruct (get_medicion_loop_unreadable offset devices [] Hex)
      as (e & d & t & Hin & He & Heq & _).
    exists e, d. rewrite get_medicion_enumerated, Heq. auto. }
  split; [exact Hacq|].
  destruct (get_system_info_outcome w true) as (system & Hsys & _).
  assert (Hout : outcome (main.main w) = Return tt) by (rewrite main_of_body; reflexivity).
  destruct (outcome (location_info.get_location_data w main.config_path))
    as [location|e] eqn:Hloc.
  - destruct (get_location_data_Return w _ _ Hloc) as (data & v & f & _ & Hkeys & _ & _ & ->).
    destruct (location_labels data f Hkeys) as (u & c & s & _ & _ & _ & _ & _ & _ & Hoff).
    set (location := <["offset_celsius" := JFloat f]> data) in *.
    destruct (Hacq f) as (e & d & Hin & He & Hraise).
    rewrite (main_trace_location w system location f Hsys Hloc Hoff).
    unfold observe.logged_payloads, observe.delivery_attempts, observe.executed_inserts,
      observe.run_errors.
    rewrite !omap_after_acquisition by ignores_prefix.
    rewrite Hdev, Hraise. cbn.
    split_and!; try reflexivity; try exact Hout.
    exists e. split; [reflexivity|]. intros _ _. exists d. auto.
  - rewrite (main_trace_no_location w e Hloc).
    unfold observe.logged_payloads, observe.delivery_attempts, observe.executed_inserts,
      observe.run_errors.
    rewrite !omap_context_then_error by ignores_prefix. cbn.
    split_and!; try reflexivity; try exact Hout.
    exists e. split; [reflexivity|]. intros ? [=].
Qed.

(** The second of three devices cannot be read: nothing is delivered, not
    even the reading of the first. *)
Lemma unreadable_device_aborts_the_run_witness :
  observe.delivery_attempts (trace (main.main samples.world_second_device_unreadable)) = [] /\
  observe.logged_payloads (trace (main.main samples.world_second_device_unreadable)) = [] /\
  outcome (temper_reader.get_medicion
             (Return [samples.device_reading samples.raw_28_512; samples.device_unreadable;
                      samples.device_reading samples.raw_30]) samples.offset_sample)
    = Raise (USBError "Timeout").
Proof.
  destruct (unreadable_device_aborts_the_run samples.world_second_device_unreadable
              [samples.device_reading samples.raw_28_512; samples.device_unreadable;
               samples.device_reading samples.raw_30] eq_refl)
    as (Hacq & Hlog & Hdel & _).
  - apply Exists_cons_tl, Exists_cons_hd. eexists. reflexivity.
  - split; [exact Hdel|]. split; [exact Hlog|].
    destruct (Hacq samples.offset_sample) as (e & d & Hin & He & Hraise).
    rewrite Hraise. f_equal.
    apply list_elem_of_In in Hin. cbn in Hin.
    destruct Hin as [<-|[<-|[<-|[]]]]; cbn in He; congruence.
Defined.

(** ** C5: the temperature of a record *)

(** [round_half_even n d] is an integer nearest to [n / d]. *)
Lemma round_half_even_nearest (n d : Z) :
  0 < d -> 0 <= n ->
  0 <= pyfloat.round_half_even n d /\
  2 * Z.abs (pyfloat.round_half_even n d * d - n) <= d.
Proof.
  intros Hd Hn. unfold pyfloat.round_half_even.
  pose proof (Z.div_mod n d ltac:(lia)) as Hdm.
  pose proof (Z.mod_pos_bound n d Hd) as Hr.
  pose proof (Z.div_pos n d Hn Hd) as Hq.
  destruct (Z.compare_spec (2 * (n mod d)) d) as [Heq|Hlt|Hgt].
  - destruct (Z.even (n / d)); split; nia.
  - split; nia.
  - split; nia.
Qed.

Lemma magnitude_positive (m : positive) (e : Z) :
  0 < snd (pyfloat.magnitude m e) /\ 0 <= fst (pyfloat.magnitude m e).
Proof.
  unfold pyfloat.magnitude. destruct e as [|p|p]; cbn [fst snd].
  - lia.
  - split; [lia|]. apply Z.mul_nonneg_nonneg; [lia|]. apply Z.pow_nonneg. lia.
  - split; [|lia]. apply Z.pow_pos_nonneg; lia.
Qed.

(** Rounding a finite float to two decimals yields the float of a decimal
    [k / 100] that lies within half a hundredth of the exact value. *)
Lemma round_two_decimals (s : bool) (m : positive) (e : Z) :
  exists k,
    pyfloat.round (S754_finite s m e) 2 = pyfloat.decimal s k 2 /\
    0 <= k /\
    2 * Z.abs (k * snd (pyfloat.magnitude m e) - fst (pyfloat.magnitude m e) * 100)
      <= snd (pyfloat.magnitude m e).
Proof.
  destruct (magnitude_positive m e) as [Hd Hn].
  unfold pyfloat.round. destruct (pyfloat.magnitude m e) as [n d]. cbn [fst snd] in *.
  exists (pyfloat.round_half_even (n * 10 ^ Z.of_nat 2) d).
  split; [reflexivity|].
  change (10 ^ Z.of_nat 2) with 100.
  apply round_half_even_nearest; lia.
Qed.

Lemma reading_of_member offset devices mediciones sensor :
  Forall2 (observe.reading_of offset) devices mediciones ->
  sensor ∈ mediciones ->
  exists device, device ∈ devices /\ observe.reading_of offset device sensor.
Proof.
  induction 1 as [|d r ds rs Hdr _ IH]; intros Hin.
  - inversion Hin.
  - apply elem_of_cons in Hin as [->|Hin].
    + exists d. split; [left|exact Hdr].
    + destruct (IH Hin) as (d' & Hd' & Hr). exists d'. split; [right; exact Hd'|exact Hr].
Qed.

(** Whatever the sink does, the temperature of every record that is logged,
    handed to [insert_into_db] or passed to [cursor.execute] in a run whose
    location is loaded is [round(raw + offset, 2)] for the raw reading of one
    of the enumerated devices and the configured offset. *)
Lemma recorded_temperatures_are_rounded_sums
    (w : world) (location : gmap string jvalue) (offset : pyfloat.float)
    (devices : list temper_device) :
  outcome (location_info.get_location_data w main.config_path) = Return location ->
  location !! "offset_celsius" = Some (JFloat offset) ->
  get_devices w = Return devices ->
  Forall (observe.rounded_sum devices offset)
    (observe.logged_payloads (trace (main.main w))) /\
  Forall (observe.rounded_sum devices offset)
    (observe.delivery_attempts (trace (main.main w))) /\
  Forall (observe.rounded_sum devices offset)
    (observe.executed_inserts (trace (main.main w))) /\
  (forall s m e, exists k,
     pyfloat.round (S754_finite s m e) 2 = pyfloat.decimal s k 2 /\
     0 <= k /\
     2 * Z.abs (k * snd (pyfloat.magnitude m e) - fst (pyfloat.magnitude m e) * 100)
       <= snd (pyfloat.magnitude m e)) /\
  pyfloat.round (pyfloat.add (pyfloat.of_decimal 28512 3) (pyfloat.of_decimal (-614) 2)) 2
    = pyfloat.of_decimal 2237 2 /\
  pyfloat.of_decimal 2237 2 <> pyfloat.of_decimal 22372 3.
Proof.
  intros Hloc Hoff Hdev.
  destruct (get_system_info_outcome w true) as (system & Hsys & _).
  assert (Hrec : forall mediciones p,
            Forall2 (observe.reading_of offset) devices mediciones ->
            observe.assembled w system location mediciones p ->
            observe.rounded_sum devices offset p).
  { intros mediciones p Hread (i & sensor & Hin & Hp).
    destruct (reading_of_member _ _ _ _ Hread Hin) as (d & Hd & _ & raw & Hraw & Ht).
    destruct (build_payload_fields w system location i sensor p Hp)
      as (_ & _ & _ & _ & _ & _ & Htemp & _).
    exists d, raw. split_and!; [exact Hd|exact Hraw|]. rewrite Htemp, Ht. reflexivity. }
  rewrite (main_trace_location w system location offset Hsys Hloc Hoff).
  unfold observe.logged_payloads, observe.delivery_attempts, observe.executed_inserts.
  rewrite !omap_after_acquisition by ignores_prefix.
  split_and!.
  4: exact round_two_decimals.
  4: vm_compute; reflexivity.
  4: vm_compute; discriminate.
  all: destruct (outcome (temper_reader.get_medicion (get_devices w) offset))
         as [[|m ms]|e] eqn:Hacq; try (cbn; constructor).
  all: destruct (get_medicion_Return _ _ _ Hacq) as (devs & Hd & _ & Hread & _).
  all: rewrite Hdev in Hd; injection Hd as <-.
  all: destruct (delivery_loop_records w system location (m :: ms) 0) as (R1 & R2 & R3).
  all: unfold observe.logged_payloads, observe.delivery_attempts, observe.executed_inserts
         in R1, R2, R3.
  all: rewrite omap_app; apply Forall_app; split;
         [|destruct (outcome (main.delivery_loop w system location 0 (m :: ms)));
           cbn; constructor].
  - eapply Forall_impl; [exact R1|]. intros p. apply Hrec. exact Hread.
  - eapply Forall_impl; [exact R2|]. intros p. apply Hrec. exact Hread.
  - eapply Forall_impl; [exact R3|]. intros p. apply Hrec. exact Hread.
Qed.

(** The records inserted in the sample run carry rounded sums. *)
Lemma recorded_temperatures_are_rounded_sums_sample :
  Forall (observe.rounded_sum
            [samples.device_reading samples.raw_28_512; samples.device_reading samples.raw_30;
             samples.device_reading samples.raw_28_512] samples.offset_sample)
    (observe.executed_inserts (trace (main.main samples.world_second_delivery_fails))).
Proof.
  apply (recorded_temperatures_are_rounded_sums samples.world_second_delivery_fails
           samples.location_ok samples.offset_sample
           [samples.device_reading samples.raw_28_512; samples.device_reading samples.raw_30;
            samples.device_reading samples.raw_28_512]).
  - vm_compute. reflexivity.
  - vm_compute. reflexivity.
  - reflexivity.
Defined.

(** Both inserted records of the sample run carry 22.37. *)
Example temperatures_of_the_sample_run :
  map temperatura
    (observe.executed_inserts (trace (main.main samples.world_second_delivery_fails)))
  = [pyfloat.of_decimal 2237 2; pyfloat.of_decimal 2237 2].
Proof. vm_compute. reflexivity. Qed.

(** * Further properties of the code *)

(** ** module/system_info.py *)

(** X1: [get_system_info] never raises and degrades field by field: the IP is
    [None] when the probe fails or is not asked for, the machine id is the
    content of /etc/machine-id, else the hardware node, else [None].  The
    probe is not run when [use_dynamic_ip] is false, and the hardware node is
    looked up only when /etc/machine-id cannot be read. *)
Theorem get_system_info_degrades (w : world) (use_dynamic_ip : bool) :
  outcome (system_info.get_system_info w use_dynamic_ip) =
    Return {| system_info.hostname := gethostname w;
              system_info.ip_maquina :=
                if use_dynamic_ip
                then match ip_probe w with Return ip => Some ip | Raise _ => None end
                else None;
              system_info.id_maquina :=
                match machine_id_file w with
                | Return s => Some s
                | Raise _ =>
                    match uuid_getnode w with Return n => Some n | Raise _ => None end
                end |} /\
  (EvProbeIp ∈ trace (system_info.get_system_info w use_dynamic_ip)
     <-> use_dynamic_ip = true) /\
  (EvGetNode ∈ trace (system_info.get_system_info w use_dynamic_ip)
     <-> exists e, machine_id_file w = Raise e).
Proof.
  destruct w as [fs fr ab h ip mid node cfg devs nw dbs].
  unfold system_info.get_system_info, system_info.get_hostname, system_info.get_ip,
    system_info.get_machine_id, perform; cbn.
  destruct use_dynamic_ip, ip as [?|?], mid as [?|?], node as [?|?]; cbn;
    (split; [reflexivity|]); split; split;
    rewrite ?elem_of_cons, ?elem_of_nil; try tauto;
    try (intros [?|[?|[?|?]]]; discriminate || tauto);
    try (intros [?|[?|?]]; discriminate || tauto);
    try (intros [?|?]; discriminate || tauto);
    try (intros [? ?]; discriminate); try discriminate; eauto 6.
Qed.

(** ** module/location_info.py *)

(** X2: [get_location_data] returns exactly when the file parses, holds the
    four required keys and its offset converts to a float; the dict returned
    is the document with the offset replaced by that float, every other key
    as it was. *)
Theorem get_location_data_returns_iff (w : world) (config_path : string)
    (location : gmap string jvalue) :
  outcome (location_info.get_location_data w config_path) = Return location <->
  exists data v f,
    config_file w (w_abspath w config_path) = FileJson data /\
    Forall (fun key => is_Some (data !! key)) location_info.required_keys /\
    data !! "offset_celsius" = Some v /\
    location_info.py_float w v = Return f /\
    location = <["offset_celsius" := JFloat f]> data /\
    location !! "offset_celsius" = Some (JFloat f) /\
    forall key, key <> "offset_celsius"%string -> location !! key = data !! key.
Proof.
  split.
  - intros Hloc.
    destruct (get_location_data_Return w _ _ Hloc) as (data & v & f & H1 & H2 & H3 & H4 & ->).
    exists data, v, f. split_and!; auto.
    + apply lookup_insert_eq.
    + intros key Hkey. apply lookup_insert_ne. congruence.
  - intros (data & v & f & Hcfg & Hkeys & Hv & Hf & -> & _).
    rewrite (get_location_data_outcome w _ _ Hcfg).
    rewrite (check_required_keys_present _ _ _ Hkeys), Hv, Hf. reflexivity.
Qed.

(** X3: of several missing keys, the error names the first one in the order
    ubicacion, cpd, sala, offset_celsius. *)
Theorem first_missing_key_is_reported (w : world) (config_path : string)
    (data : gmap string jvalue) (before after : list string) (key : string) :
  config_file w (w_abspath w config_path) = FileJson data ->
  location_info.required_keys = before ++ key :: after ->
  Forall (fun k => is_Some (data !! k)) before ->
  data !! key = None ->
  location_info.get_location_data w config_path =
  ([EvConfigFile (w_abspath w config_path)],
   Raise (KeyError ("Falta la clave '" +:+ key +:+ "' en " +:+ w_abspath w config_path))).
Proof.
  intros Hcfg Hsplit Hbefore Hkey.
  rewrite (M_eta (location_info.get_location_data w config_path)).
  rewrite get_location_data_trace, (get_location_data_outcome w _ _ Hcfg), Hsplit.
  clear Hsplit.
  induction Hbefore as [|k rest [v Hv] _ IH]; cbn.
  - rewrite Hkey. reflexivity.
  - rewrite Hv. exact IH.
Qed.

(** With [cpd] and [offset_celsius] both missing, [cpd] is reported. *)
Lemma first_missing_key_is_reported_witness :
  location_info.get_location_data more_samples.world_two_missing main.config_path =
  ([EvConfigFile "/opt/temper/config/config.json"],
   Raise (KeyError "Falta la clave 'cpd' en /opt/temper/config/config.json")).
Proof.
  apply (first_missing_key_is_reported more_samples.world_two_missing main.config_path
           more_samples.config_two_missing ["ubicacion"%string] ["sala"; "offset_celsius"]%string
           "cpd" eq_refl eq_refl).
  - repeat constructor. eexists. vm_compute. reflexivity.
  - vm_compute. reflexivity.
Defined.

(** X4: a document whose offset is already a float is returned as it is; an
    integer offset that fits a float is replaced by that float. *)
Theorem get_location_data_offset_conversion (w : world) (config_path : string)
    (data : gmap string jvalue) :
  config_file w (w_abspath w config_path) = FileJson data ->
  Forall (fun key => is_Some (data !! key)) location_info.required_keys ->
  (forall f, data !! "offset_celsius" = Some (JFloat f) ->
     outcome (location_info.get_location_data w config_path) = Return data) /\
  (forall n, data !! "offset_celsius" = Some (JInt n) ->
     pyfloat.is_finite (pyfloat.of_Z n) = true ->
     outcome (location_info.get_location_data w config_path) =
       Return (<["offset_celsius" := JFloat (pyfloat.of_Z n)]> data)).
Proof.
  intros Hcfg Hkeys.
  rewrite (get_location_data_outcome w _ _ Hcfg), (check_required_keys_present _ _ _ Hkeys).
  split.
  - intros f Hf. rewrite Hf. cbn. rewrite (insert_id _ _ _ Hf). reflexivity.
  - intros n Hn Hfin. rewrite Hn. cbn. rewrite Hfin. reflexivity.
Qed.

Lemma get_location_data_offset_conversion_witness :
  outcome (location_info.get_location_data samples.world_no_sensor_no_credentials
             main.config_path) = Return samples.config_ok /\
  outcome (location_info.get_location_data more_samples.world_int_offset main.config_path)
    = Return (<["offset_celsius" := JFloat (pyfloat.of_Z (-6))]>
                more_samples.config_int_offset).
Proof.
  assert (K1 : Forall (fun key => is_Some (samples.config_ok !! key))
                 location_info.required_keys).
  { repeat constructor; eexists; vm_compute; reflexivity. }
  assert (K2 : Forall (fun key => is_Some (more_samples.config_int_offset !! key))
                 location_info.required_keys).
  { repeat constructor; eexists; vm_compute; reflexivity. }
  split.
  - apply (proj1 (get_location_data_offset_conversion samples.world_no_sensor_no_credentials
                    main.config_path samples.config_ok eq_refl K1)
             (pyfloat.of_decimal (-614) 2)).
    vm_compute. reflexivity.
  - apply (proj2 (get_location_data_offset_conversion more_samples.world_int_offset
                    main.config_path more_samples.config_int_offset eq_refl K2) (-6)%Z).
    + vm_compute. reflexivity.
    + vm_compute. reflexivity.
Defined.

(** ** module/db_connection.py and module/json_builder.py *)

Section sink_facts.
Import db_connection.

(** Reading the five keys of the credentials, in order. *)
Lemma credential_lookups (creds : gmap string jvalue) :
  Forall (fun k => is_Some (creds !! k)) observe.credential_keys \/
  exists key, key ∈ observe.credential_keys /\ creds !! key = None /\
    (_ ← getitem creds "host"; _ ← getitem creds "port"; _ ← getitem creds "user";
     _ ← getitem creds "password"; _ ← getitem creds "database"; Return tt)
    = Raise (KeyError key).
Proof.
  unfold observe.credential_keys, getitem.
  destruct (creds !! "host") as [v1|] eqn:H1;
    [|right; exists "host"%string; split_and!; [set_solver|exact H1|reflexivity]].
  destruct (creds !! "port") as [v2|] eqn:H2;
    [|right; exists "port"%string; split_and!; [set_solver|exact H2|reflexivity]].
  destruct (creds !! "user") as [v3|] eqn:H3;
    [|right; exists "user"%string; split_and!; [set_solver|exact H3|reflexivity]].
  destruct (creds !! "password") as [v4|] eqn:H4;
    [|right; exists "password"%string; split_and!; [set_solver|exact H4|reflexivity]].
  destruct (creds !! "database") as [v5|] eqn:H5;
    [|right; exists "database"%string; split_and!; [set_solver|exact H5|reflexivity]].
  left. repeat constructor; eauto.
Qed.

End sink_facts.

(** X5: when the credentials object lacks one of host, port, user, password
    and database, [get_db_connection] raises the [KeyError] of a missing key
    without trying to connect, and [insert_into_db] lets it through: no
    [False], no connection, nothing executed. *)
Theorem incomplete_credentials_raise_before_connect
    (env : db_connection.db_env) (p : payload)
    (doc : gmap string (gmap string jvalue)) (creds : gmap string jvalue) :
  db_connection.credentials_file env = FileJson doc ->
  doc !! "database" = Some creds ->
  Exists (fun k => creds !! k = None) observe.credential_keys ->
  exists key,
    key ∈ observe.credential_keys /\ creds !! key = None /\
    db_connection.get_db_connection env =
      ([EvCredentialsFile (db_connection.abspath env "config/credenciales.json")],
       Raise (KeyError key)) /\
    json_builder.insert_into_db env p =
      ([EvCall_insert_into_db p;
        EvCredentialsFile (db_connection.abspath env "config/credenciales.json")],
       Raise (KeyError key)).
Proof.
  intros Hfile Hdb Hex.
  destruct (credential_lookups creds) as [Hall|(key & Hin & Hnone & Hraise)].
  { exfalso. apply Exists_exists in Hex as (k & Hk & Hn).
    rewrite Forall_forall in Hall. destruct (Hall k Hk) as [x Hx]. congruence. }
  exists key. split; [exact Hin|]. split; [exact Hnone|].
  assert (Hconn : db_connection.get_db_connection env =
      ([EvCredentialsFile (db_connection.abspath env "config/credenciales.json")],
       Raise (KeyError key))).
  { unfold db_connection.get_db_connection, db_connection.load_credentials, perform.
    rewrite Hfile. unfold getitem in *. rewrite Hdb. rewrite bind_Return.
    revert Hraise. unfold lift.
    destruct (creds !! "host"); [|intros [= <-]; reflexivity].
    destruct (creds !! "port"); [|intros [= <-]; reflexivity].
    destruct (creds !! "user"); [|intros [= <-]; reflexivity].
    destruct (creds !! "password"); [|intros [= <-]; reflexivity].
    destruct (creds !! "database"); [|intros [= <-]; reflexivity].
    discriminate. }
  split; [exact Hconn|].
  unfold json_builder.insert_into_db, perform. rewrite bind_Return, Hconn. reflexivity.
Qed.

Lemma incomplete_credentials_raise_before_connect_witness :
  json_builder.insert_into_db more_samples.db_without_password samples.payload_sample =
  ([EvCall_insert_into_db samples.payload_sample;
    EvCredentialsFile "/opt/temper/config/credenciales.json"],
   Raise (KeyError "password")).
Proof.
  destruct (incomplete_credentials_raise_before_connect more_samples.db_without_password
              samples.payload_sample
              (<["database" := more_samples.creds_without_password]> ∅)
              more_samples.creds_without_password eq_refl)
    as (key & Hin & Hnone & _ & Hins).
  - vm_compute. reflexivity.
  - unfold observe.credential_keys. do 3 apply Exists_cons_tl. apply Exists_cons_hd.
    vm_compute. reflexivity.
  - rewrite Hins. apply list_elem_of_In in Hin. cbn in Hin.
    destruct Hin as [<-|[<-|[<-|[<-|[<-|[]]]]]]; vm_compute in Hnone;
      try discriminate. reflexivity.
Defined.

(** X6: [False] always means a database error: either [mariadb.connect]
    raised one, or the connection and its cursor were there and the execute or
    the commit raised one.  No other failure is turned into [False]. *)
Theorem insert_into_db_false_means_database_error
    (env : db_connection.db_env) (p : payload) :
  outcome (json_builder.insert_into_db env p) = Return false ->
  (exists msg, db_connection.connect env = Raise (MariadbError msg)) \/
  (exists conn cur msg,
     db_connection.connect env = Return conn /\
     db_connection.cursor conn = Return cur /\
     (db_connection.execute cur = Raise (MariadbError msg) \/
      (db_connection.execute cur = Return tt /\
       db_connection.commit conn = Raise (MariadbError msg)))).
Proof.
  destruct env as [ab cf cn].
  unfold_insert_into_db; cbn.
  repeat (case_match; simplify_eq; cbn); try discriminate.
  all: intros _.
  all: repeat match goal with u : unit |- _ => destruct u end.
  all: repeat match goal with
         | H : is_MariadbError ?e = true |- _ => destruct e; try discriminate H; clear H
         end.
  all: eauto 10.
Qed.

Lemma insert_into_db_false_means_database_error_witness :
  (exists msg, db_connection.connect samples.db_unreachable = Raise (MariadbError msg)) \/
  (exists conn cur msg,
     db_connection.connect samples.db_unreachable = Return conn /\
     db_connection.cursor conn = Return cur /\
     (db_connection.execute cur = Raise (MariadbError msg) \/
      (db_connection.execute cur = Return tt /\
       db_connection.commit conn = Raise (MariadbError msg)))).
Proof.
  apply (insert_into_db_false_means_database_error samples.db_unreachable
           samples.payload_sample).
  vm_compute. reflexivity.
Defined.

(** X7: once the cursor is open, the [finally] block runs on every path: the
    call ends by closing the cursor and, when that close returns, the
    connection, whatever the execute and the commit did. *)
Theorem insert_into_db_closes_cursor_and_connection
    (env : db_connection.db_env) (p : payload)
    (doc : gmap string (gmap string jvalue)) (creds : gmap string jvalue)
    (conn : db_connection.connection) (cur : db_connection.cursor_obj) :
  db_connection.credentials_file env = FileJson doc ->
  doc !! "database" = Some creds ->
  Forall (fun k => is_Some (creds !! k)) observe.credential_keys ->
  db_connection.connect env = Return conn ->
  db_connection.cursor conn = Return cur ->
  db_connection.cursor_close cur = Return tt ->
  exists t,
    trace (json_builder.insert_into_db env p) = t ++ [EvCursorClose; EvConnClose] /\
    tally.count tally.is_EvConnClose t = 0%nat.
Proof.
  intros Hfile Hdb Hkeys Hc Hcur Hcc.
  pose proof (get_db_connection_with_credentials env doc creds Hfile Hdb Hkeys) as Hconn.
  unfold json_builder.insert_into_db, perform.
  rewrite bind_Return, Hconn, Hc. cbn [trace outcome fst snd].
  rewrite bind_Return. cbn [trace outcome fst snd]. rewrite Hcur.
  rewrite bind_Return. cbn [trace outcome fst snd]. rewrite Hcc.
  destruct (db_connection.execute cur) as [[]|e1];
    [destruct (db_connection.commit conn) as [[]|e2]|];
    destruct (db_connection.conn_close conn) as [[]|e3]; cbn;
    try (destruct (is_MariadbError e2)); try (destruct (is_MariadbError e1)); cbn;
    first [ eexists [_; _; _; _; _; _]; split; [reflexivity|reflexivity]
          | eexists [_; _; _; _; _]; split; [reflexivity|reflexivity] ].
Qed.

Lemma insert_into_db_closes_cursor_and_connection_witness :
  exists t,
    trace (json_builder.insert_into_db samples.db_rejecting samples.payload_sample)
      = t ++ [EvCursorClose; EvConnClose] /\
    tally.count tally.is_EvConnClose t = 0%nat.
Proof.
  apply (insert_into_db_closes_cursor_and_connection samples.db_rejecting
           samples.payload_sample samples.credentials_ok samples.creds_ok
           samples.connection_rejecting samples.cursor_rejecting eq_refl eq_refl);
    try reflexivity.
  repeat constructor; eexists; vm_compute; reflexivity.
Defined.

(** X8: two paths on which the connection is not closed and the caller gets
    an exception: when [conn.cursor()] raises (it is called before the [try]),
    and when [cursor.close()] raises in the [finally] block, which also
    replaces the [True] of an insert that was committed. *)
Theorem insert_into_db_connection_left_open
    (env : db_connection.db_env) (p : payload)
    (doc : gmap string (gmap string jvalue)) (creds : gmap string jvalue)
    (conn : db_connection.connection) :
  db_connection.credentials_file env = FileJson doc ->
  doc !! "database" = Some creds ->
  Forall (fun k => is_Some (creds !! k)) observe.credential_keys ->
  db_connection.connect env = Return conn ->
  (forall e, db_connection.cursor conn = Raise e ->
     json_builder.insert_into_db env p =
       ([EvCall_insert_into_db p;
         EvCredentialsFile (db_connection.abspath env "config/credenciales.json");
         EvConnect; EvCursor], Raise e)) /\
  (forall cur e,
     db_connection.cursor conn = Return cur ->
     db_connection.cursor_close cur = Raise e ->
     outcome (json_builder.insert_into_db env p) = Raise e /\
     tally.count tally.is_EvConnClose (trace (json_builder.insert_into_db env p)) = 0%nat /\
     (db_connection.execute cur = Return tt -> db_connection.commit conn = Return tt ->
      EvCommit ∈ trace (json_builder.insert_into_db env p))).
Proof.
  intros Hfile Hdb Hkeys Hc.
  pose proof (get_db_connection_with_credentials env doc creds Hfile Hdb Hkeys) as Hconn.
  split.
  - intros e He. unfold json_builder.insert_into_db, perform.
    rewrite bind_Return, Hconn, Hc. cbn [trace outcome fst snd].
    rewrite bind_Return. cbn [trace outcome fst snd]. rewrite He. reflexivity.
  - intros cur e Hcur Hcc. unfold json_builder.insert_into_db, perform.
    rewrite bind_Return, Hconn, Hc. cbn [trace outcome fst snd].
    rewrite bind_Return. cbn [trace outcome fst snd]. rewrite Hcur.
    rewrite bind_Return. cbn [trace outcome fst snd]. rewrite Hcc.
    destruct (db_connection.execute cur) as [[]|e1];
      [destruct (db_connection.commit conn) as [[]|e2]|]; cbn;
      try (destruct (is_MariadbError e2)); try (destruct (is_MariadbError e1)); cbn;
      (split; [reflexivity|]); (split; [reflexivity|]);
      intros; try discriminate; set_solver.
Qed.

Lemma insert_into_db_connection_left_open_witness :
  outcome (json_builder.insert_into_db more_samples.db_without_cursor samples.payload_sample)
    = Raise (MariadbError "Server has gone away") /\
  outcome (json_builder.insert_into_db more_samples.db_stuck samples.payload_sample)
    = Raise (MariadbError "Lost connection") /\
  EvCommit ∈ trace (json_builder.insert_into_db more_samples.db_stuck samples.payload_sample).
Proof.
  assert (Hkeys : Forall (fun k => is_Some (samples.creds_ok !! k)) observe.credential_keys).
  { repeat constructor; eexists; vm_compute; reflexivity. }
  destruct (insert_into_db_connection_left_open more_samples.db_without_cursor
              samples.payload_sample samples.credentials_ok samples.creds_ok
              more_samples.connection_without_cursor eq_refl eq_refl Hkeys eq_refl)
    as [H1 _].
  destruct (insert_into_db_connection_left_open more_samples.db_stuck
              samples.payload_sample samples.credentials_ok samples.creds_ok
              more_samples.connection_stuck eq_refl eq_refl Hkeys eq_refl)
    as [_ H2].
  destruct (H2 more_samples.cursor_stuck (MariadbError "Lost connection") eq_refl eq_refl)
    as (Ho & _ & Hcommit).
  split; [rewrite (H1 _ eq_refl); reflexivity|].
  split; [exact Ho|apply Hcommit; reflexivity].
Defined.

(** ** module/temper_reader.py *)

(** X9: [get_medicion] reads the devices in order and stops at the first one
    whose temperature cannot be read: the devices after it are never asked,
    and the readings already taken are dropped with the exception. *)
Theorem get_medicion_stops_at_first_unreadable
    (before after : list temper_device) (device : temper_device) (e : exn)
    (offset : pyfloat.float) :
  Forall observe.readable before ->
  get_temperature device = Raise e ->
  temper_reader.get_medicion (Return (before ++ device :: after)) offset =
  (EvCall_get_medicion offset :: EvGetDevices
     :: map EvGetTemperature (before ++ [device]),
   Raise e).
Proof.
  intros Hbefore He. rewrite get_medicion_enumerated.
  assert (Hloop : forall output,
            temper_reader.get_medicion_loop (before ++ device :: after) offset output =
            (map EvGetTemperature (before ++ [device]), Raise e)).
  { induction Hbefore as [|d rest [t Ht] _ IH]; intros output.
    - apply get_medicion_loop_cons_unreadable. exact He.
    - destruct (lift_get_device_metadata d) as (md & _ & Hmd).
      cbn [app]. rewrite (get_medicion_loop_cons_readable _ _ _ _ _ _ Hmd Ht), IH.
      reflexivity. }
  rewrite Hloop. reflexivity.
Qed.

Lemma get_medicion_stops_at_first_unreadable_witness :
  tally.temperature_reads
    (trace (temper_reader.get_medicion
              (Return [samples.device_reading samples.raw_28_512; samples.device_unreadable;
                       samples.device_reading samples.raw_30]) samples.offset_sample))
  = [samples.device_reading samples.raw_28_512; samples.device_unreadable].
Proof.
  assert (Hbefore : Forall observe.readable [samples.device_reading samples.raw_28_512]).
  { repeat constructor. eexists. reflexivity. }
  pose proof (get_medicion_stops_at_first_unreadable
                [samples.device_reading samples.raw_28_512]
                [samples.device_reading samples.raw_30]
                samples.device_unreadable (USBError "Timeout") samples.offset_sample
                Hbefore eq_refl) as H.
  cbn [app] in H. rewrite H. reflexivity.
Defined.

(** X10: the serial number of a metadata dict is never [None] and never the
    empty string: an unreadable, absent or empty serial number is replaced by
    'Desconocido'. *)
Theorem serial_number_is_never_empty (device : temper_device) :
  exists (m : gmap string (option string)) (s : string),
    temper_reader.get_device_metadata device = Return m /\
    m !! "serial_number" = Some (Some s) /\ s <> ""%string /\
    (s = temper_reader.Desconocido \/
     exists dev, _device device = Some dev /\ serial_string dev = Return (Some s)).
Proof.
  rewrite get_device_metadata_value.
  destruct (_device device) as [dev|].
  - destruct (serial_string dev) as [[[|a s]|]|e] eqn:Hs; eexists _, _;
      (split; [reflexivity|]); (split; [simplify_map_eq; cbn; reflexivity|]);
      (split; [discriminate|]); eauto.
  - eexists _, _. split; [reflexivity|]. split; [simplify_map_eq; reflexivity|].
    split; [discriminate|]. left. reflexivity.
Qed.

(** The enumeration itself fails: nothing is read. *)
Lemma get_medicion_enumeration_fails (e : exn) (offset : pyfloat.float) :
  temper_reader.get_medicion (Raise e) offset =
  ([EvCall_get_medicion offset; EvGetDevices], Raise e).
Proof. unfold temper_reader.get_medicion, perform. rewrite bind_Return. reflexivity. Qed.

(** ** main.py *)

(** The two shapes of a run: the location cannot be loaded, or it is loaded
    and the run goes on to the acquisition. *)
Lemma main_run_cases (w : world) :
  (exists e,
     outcome (location_info.get_location_data w main.config_path) = Raise e /\
     trace (main.main w) =
       trace (system_info.get_system_info w true)
         ++ [EvConfigFile (w_abspath w main.config_path); EvLog ERROR (MsgRunError e)]) \/
  (exists system location offset u c s,
     outcome (system_info.get_system_info w true) = Return system /\
     outcome (location_info.get_location_data w main.config_path) = Return location /\
     location !! "offset_celsius" = Some (JFloat offset) /\
     location !! "ubicacion" = Some u /\ location !! "cpd" = Some c /\
     location !! "sala" = Some s /\
     trace (main.main w) =
       trace (system_info.get_system_info w true)
         ++ EvConfigFile (w_abspath w main.config_path)
         :: trace (temper_reader.get_medicion (get_devices w) offset)
         ++ match outcome (temper_reader.get_medicion (get_devices w) offset) with
            | Raise e => [EvLog ERROR (MsgRunError e)]
            | Return [] => [EvLog WARNING MsgNoSensors]
            | Return mediciones =>
                trace (main.delivery_loop w system location 0 mediciones)
                ++ match outcome (main.delivery_loop w system location 0 mediciones) with
                   | Raise e => [EvLog ERROR (MsgRunError e)]
                   | Return _ => []
                   end
            end).
Proof.
  destruct (get_system_info_outcome w true) as (system & Hsys & _).
  destruct (outcome (location_info.get_location_data w main.config_path))
    as [location|e] eqn:Hloc.
  - right.
    destruct (get_location_data_Return w _ _ Hloc) as (data & v & f & _ & Hkeys & _ & _ & ->).
    destruct (location_labels data f Hkeys) as (u & c & s & _ & _ & _ & Hu & Hc & Hs & Hoff).
    exists system, (<["offset_celsius" := JFloat f]> data), f, u, c, s.
    split_and!; try assumption; try reflexivity.
    apply (main_trace_location w system _ f Hsys Hloc Hoff).
  - left. exists e. split; [reflexivity|]. apply main_trace_no_location. exact Hloc.
Qed.

(** X11: a configuration file that is missing or is not valid JSON ends the
    run like an invalid one: one error line naming the problem, no
    acquisition, no delivery. *)
Theorem unreadable_config_file_is_fatal (w : world) :
  (config_file w (w_abspath w main.config_path) = FileMissing \/
   config_file w (w_abspath w main.config_path) = FileMalformed) ->
  exists e,
    trace (main.main w) =
      trace (system_info.get_system_info w true)
        ++ [EvConfigFile (w_abspath w main.config_path); EvLog ERROR (MsgRunError e)] /\
    (config_file w (w_abspath w main.config_path) = FileMissing ->
     e = FileNotFoundError ("Archivo de configuración no encontrado: "
                            +:+ w_abspath w main.config_path)) /\
    (config_file w (w_abspath w main.config_path) = FileMalformed -> e = JSONDecodeError) /\
    Forall (fun ev => observe.is_acquisition ev = false) (trace (main.main w)) /\
    observe.delivery_attempts (trace (main.main w)) = [].
Proof.
  intros Hbad.
  assert (Hout : exists e,
    outcome (location_info.get_location_data w main.config_path) = Raise e /\
    (config_file w (w_abspath w main.config_path) = FileMissing ->
     e = FileNotFoundError ("Archivo de configuración no encontrado: "
                            +:+ w_abspath w main.config_path)) /\
    (config_file w (w_abspath w main.config_path) = FileMalformed -> e = JSONDecodeError)).
  { unfold location_info.get_location_data, perform.
    destruct Hbad as [H|H]; rewrite H; eexists; split_and!; try reflexivity;
      intros; congruence. }
  destruct Hout as (e & He & H1 & H2). exists e.
  rewrite (main_trace_no_location w e He). split_and!; auto.
  - pose proof (get_system_info_context w true) as Hctx.
    apply Forall_app. split.
    + eapply Forall_impl; [exact Hctx|]. intros [] H; cbn in *; congruence.
    + repeat constructor.
  - unfold observe.delivery_attempts.
    rewrite omap_context_then_error by ignores_prefix. reflexivity.
Qed.

Lemma unreadable_config_file_is_fatal_witness :
  observe.run_errors (trace (main.main more_samples.world_without_config)) =
  [FileNotFoundError "Archivo de configuración no encontrado: /opt/temper/config/config.json"].
Proof.
  destruct (unreadable_config_file_is_fatal more_samples.world_without_config)
    as (e & Htrace & Hmissing & _).
  - left. reflexivity.
  - rewrite Htrace, (Hmissing eq_refl). unfold observe.run_errors.
    rewrite omap_context_then_error by ignores_prefix. reflexivity.
Defined.

(** X12: with a valid location and no device enumerated the run is the host
    lookups, the read of the configuration, the empty enumeration and the
    warning: no credentials file is opened, no database is contacted, no error
    is logged. *)
Theorem run_without_sensors (w : world) (location : gmap string jvalue) :
  outcome (location_info.get_location_data w main.config_path) = Return location ->
  get_devices w = Return [] ->
  exists offset,
    location !! "offset_celsius" = Some (JFloat offset) /\
    main.main w =
      (trace (system_info.get_system_info w true)
         ++ [EvConfigFile (w_abspath w main.config_path);
             EvCall_get_medicion offset; EvGetDevices;
             EvLog WARNING MsgNoSensors],
       Return tt).
Proof.
  intros Hloc Hdev.
  destruct (get_system_info_outcome w true) as (system & Hsys & _).
  destruct (get_location_data_Return w _ _ Hloc) as (data & v & f & _ & Hkeys & _ & _ & ->).
  destruct (location_labels data f Hkeys) as (u & c & s & _ & _ & _ & _ & _ & _ & Hoff).
  exists f. split; [exact Hoff|].
  rewrite (M_eta (main.main w)).
  rewrite (main_trace_location w system _ f Hsys Hloc Hoff), Hdev.
  rewrite main_of_body. reflexivity.
Qed.

Lemma run_without_sensors_witness :
  exists offset,
    samples.location_ok !! "offset_celsius" = Some (JFloat offset) /\
    main.main more_samples.world_no_sensor =
      (trace (system_info.get_system_info more_samples.world_no_sensor true)
         ++ [EvConfigFile (w_abspath more_samples.world_no_sensor main.config_path);
             EvCall_get_medicion offset; EvGetDevices;
             EvLog WARNING MsgNoSensors],
       Return tt).
Proof.
  apply (run_without_sensors more_samples.world_no_sensor samples.location_ok).
  - vm_compute. reflexivity.
  - reflexivity.
Defined.

(** ** Invariants of every run *)






Section loop_invariants.
Variable w : world.
Variable system : system_info.system.
Variable location : gmap string jvalue.

(** The loop never writes an "Error al leer sensores" line itself. *)
Lemma delivery_loop_no_run_error (mediciones : list medicion) : forall i,
  observe.run_errors (trace (main.delivery_loop w system location i mediciones)) = [].
Proof.
  induction mediciones as [|sensor rest IH]; intros i; [reflexivity|].
  destruct (main.build_payload w system location i sensor) as [p|e] eqn:Hp.
  - rewrite (delivery_loop_cons _ _ _ _ _ _ _ Hp). cbn [trace fst].
    destruct (insert_into_db_trace (db w i) p) as (t & -> & Ht).
    unfold observe.run_errors in *. cbn [app omap list_omap]. rewrite omap_app.
    assert (T : omap (fun ev => match ev with
                                | EvLog ERROR (MsgRunError e) => Some e | _ => None end) t = [])
      by no_such_event.
    rewrite T. cbn [app].
    destruct (outcome (json_builder.insert_into_db (db w i) p)) as [[]|]; cbn;
      try apply IH; reflexivity.
  - rewrite (delivery_loop_cons_Raise _ _ _ _ _ _ _ Hp). reflexivity.
Qed.



End loop_invariants.

(** X13: [main] never lets an exception out and always returns.  An exception
    of the [try] block leaves exactly one "Error al leer sensores" line,
    which is the last event of the run; otherwise there is no such line. *)
Theorem main_always_returns (w : world) :
  outcome (main.main w) = Return tt /\
  ((outcome (main.main_body w) = Return tt /\
    trace (main.main w) = trace (main.main_body w) /\
    observe.run_errors (trace (main.main w)) = []) \/
   (exists e,
      outcome (main.main_body w) = Raise e /\
      trace (main.main w) = trace (main.main_body w) ++ [EvLog ERROR (MsgRunError e)] /\
      observe.run_errors (trace (main.main w)) = [e])).
Proof.
  assert (Hbody : observe.run_errors (trace (main.main_body w)) = []).
  { destruct (get_system_info_outcome w true) as (system & Hsys & _).
    destruct (outcome (location_info.get_location_data w main.config_path))
      as [location|e] eqn:Hloc.
    - destruct (get_location_data_Return w _ _ Hloc)
        as (data & v & f & _ & Hkeys & _ & _ & ->).
      destruct (location_labels data f Hkeys) as (u & c & s & _ & _ & _ & _ & _ & _ & Hoff).
      rewrite (main_body_location w system _ f Hsys Hloc Hoff). cbn [trace fst].
      unfold observe.run_errors. rewrite omap_after_acquisition by ignores_prefix.
      destruct (outcome (temper_reader.get_medicion (get_devices w) f)) as [[|m ms]|e];
        try reflexivity.
      apply delivery_loop_no_run_error.
    - rewrite (main_body_no_location w e Hloc). cbn [trace fst].
      unfold observe.run_errors. rewrite omap_app.
      assert (Hs : omap (fun ev => match ev with
                                   | EvLog ERROR (MsgRunError e) => Some e | _ => None end)
                     (trace (system_info.get_system_info w true)) = []).
      { apply (omap_none_Forall _ (fun ev => observe.is_context_capture ev = true));
          [ignores_prefix|apply get_system_info_context]. }
      rewrite Hs. reflexivity. }
  rewrite main_of_body. cbn [trace outcome fst snd]. split; [reflexivity|].
  destruct (outcome (main.main_body w)) as [[]|e].
  - left. rewrite app_nil_r. auto.
  - right. exists e. split_and!; try reflexivity.
    unfold observe.run_errors in *. rewrite omap_app, Hbody. reflexivity.
Qed.



(** The serial number of the record built from a reading of a device. *)
Lemma serial_of_reading (w : world) system (location : gmap string jvalue) offset
    (device : temper_device) (i : nat) (sensor : medicion) (p : payload) :
  observe.reading_of offset device sensor ->
  main.build_payload w system location i sensor = Return p ->
  tally.has_serial p.
Proof.
  intros (Hmd & _) Hp.
  destruct (build_payload_fields w system location i sensor p Hp)
    as (_ & _ & _ & _ & _ & _ & _ & _ & Hserial & _).
  rewrite get_device_metadata_value in Hmd. injection Hmd as Hmd.
  unfold tally.has_serial. rewrite Hserial, <- Hmd. unfold dict_get.
  destruct (_device device) as [dev|].
  - destruct (serial_string dev) as [[[|a s]|]|e]; simplify_map_eq; cbn;
      eexists; (split; [reflexivity|discriminate]).
  - simplify_map_eq. eexists. split; [reflexivity|discriminate].
Qed.

(** X16: every record handed to the sink in any run has a serial number that
    is a non-empty string: the 'Desconocido' of [get_device_metadata] reaches
    the record, and [numero_serie] is never NULL. *)
Theorem delivered_records_have_a_serial_number (w : world) :
  Forall tally.has_serial (observe.delivery_attempts (trace (main.main w))) /\
  Forall tally.has_serial (observe.executed_inserts (trace (main.main w))).
Proof.
  destruct (main_run_cases w)
    as [(e & _ & ->)|(system & location & offset & u & c & s & _ & _ & _ & _ & _ & _ & ->)].
  - unfold observe.delivery_attempts, observe.executed_inserts.
    rewrite !omap_context_then_error by ignores_prefix. cbn. split; constructor.
  - unfold observe.delivery_attempts, observe.executed_inserts.
    rewrite !omap_after_acquisition by ignores_prefix.
    destruct (outcome (temper_reader.get_medicion (get_devices w) offset))
      as [[|m ms]|e] eqn:Hacq; try (cbn; split; constructor).
    destruct (get_medicion_Return _ _ _ Hacq) as (devices & _ & _ & Hread & _).
    destruct (delivery_loop_records w system location (m :: ms) 0) as (_ & R2 & R3).
    unfold observe.delivery_attempts, observe.executed_inserts in R2, R3.
    assert (Hser : forall p, observe.assembled w system location (m :: ms) p ->
                             tally.has_serial p).
    { intros p (i & sensor & Hin & Hp).
      destruct (reading_of_member _ _ _ _ Hread Hin) as (d & _ & Hd).
      apply (serial_of_reading w system location offset d i sensor p Hd Hp). }
    rewrite !omap_app.
    split; (apply Forall_app; split;
      [eapply Forall_impl; [eassumption|exact Hser]
      |destruct (outcome (main.delivery_loop w system location 0 (m :: ms)));
       cbn; constructor]).
Qed.

(** ** When the sink raises instead of answering *)

Section sink_raises.
Variable w : world.
Variable system : system_info.system.
Variable location : gmap string jvalue.

Lemma delivery_loop_sink_raises (u c s : jvalue) (sensor : medicion)
    (after : list medicion) (e : exn) :
  location !! "ubicacion" = Some u ->
  location !! "cpd" = Some c ->
  location !! "sala" = Some s ->
  forall (before : list medicion) (i : nat),
  (forall k, (k < length before)%nat ->
     exists b, forall p, outcome (json_builder.insert_into_db (db w (i + k)) p) = Return b) ->
  (forall p, outcome (json_builder.insert_into_db (db w (i + length before)) p) = Raise e) ->
  outcome (main.delivery_loop w system location i (before ++ sensor :: after)) = Raise e /\
  length (observe.delivery_attempts
            (trace (main.delivery_loop w system location i (before ++ sensor :: after))))
    = S (length before).
Proof.
  intros Hu Hc Hs.
  induction before as [|first before IH]; intros i Hbool Hraise.
  - pose proof (build_payload_Return w system location i sensor u c s Hu Hc Hs) as Hp.
    set (p := {| fecha_hora := now w i |}) in Hp.
    cbn [app]. rewrite (delivery_loop_cons _ _ _ _ _ _ _ Hp).
    replace (i + length (@nil medicion))%nat with i in Hraise by (cbn; lia).
    rewrite (Hraise p). cbn [trace outcome fst snd]. split; [reflexivity|].
    destruct (insert_into_db_trace (db w i) p) as (t & -> & Ht).
    unfold observe.delivery_attempts. cbn [app omap list_omap]. rewrite app_nil_r.
    assert (T : omap (fun ev => match ev with
                                | EvCall_insert_into_db p => Some p | _ => None end) t = [])
      by no_such_event.
    rewrite T. reflexivity.
  - pose proof (build_payload_Return w system location i first u c s Hu Hc Hs) as Hp.
    set (p := {| fecha_hora := now w i |}) in Hp.
    destruct (Hbool 0%nat ltac:(cbn; lia)) as (b & Hb).
    replace (i + 0)%nat with i in Hb by lia.
    destruct (IH (S i)) as (IHo & IHl).
    { intros k Hk. destruct (Hbool (S k) ltac:(cbn; lia)) as (b' & Hb').
      exists b'. intros q. replace (S i + k)%nat with (i + S k)%nat by lia. apply Hb'. }
    { intros q. replace (S i + length before)%nat
        with (i + length (first :: before))%nat by (cbn; lia). apply Hraise. }
    cbn [app]. rewrite (delivery_loop_cons _ _ _ _ _ _ _ Hp), (Hb p).
    cbn [trace outcome fst snd]. split; [exact IHo|].
    destruct (insert_into_db_trace (db w i) p) as (t & -> & Ht).
    unfold observe.delivery_attempts in *. cbn [app omap list_omap]. rewrite omap_app.
    assert (T : omap (fun ev => match ev with
                                | EvCall_insert_into_db p => Some p | _ => None end) t = [])
      by no_such_event.
    rewrite T. destruct b; cbn [app omap list_omap length]; rewrite IHl; reflexivity.
Qed.

End sink_raises.

(** X17: an exception of the sink, unlike a [False], ends the batch: when the
    deliveries before some reading answer with booleans and the delivery of
    that reading raises, the readings after it are never handed to the sink,
    and the run ends with the exception as its one error line. *)
Theorem sink_exception_ends_the_batch
    (w : world) (location : gmap string jvalue) (offset : pyfloat.float)
    (before after : list medicion) (sensor : medicion) (e : exn) :
  outcome (location_info.get_location_data w main.config_path) = Return location ->
  location !! "offset_celsius" = Some (JFloat offset) ->
  outcome (temper_reader.get_medicion (get_devices w) offset)
    = Return (before ++ sensor :: after) ->
  (forall k, (k < length before)%nat ->
     exists b, forall p, outcome (json_builder.insert_into_db (db w k) p) = Return b) ->
  (forall p, outcome (json_builder.insert_into_db (db w (length before)) p) = Raise e) ->
  outcome (main.main w) = Return tt /\
  length (observe.delivery_attempts (trace (main.main w))) = S (length before) /\
  observe.run_errors (trace (main.main w)) = [e].
Proof.
  intros Hloc Hoff Hacq Hbool Hraise.
  destruct (get_system_info_outcome w true) as (system & Hsys & _).
  destruct (get_location_data_Return w _ _ Hloc) as (data & v & f & _ & Hkeys & _ & _ & ->).
  destruct (location_labels data f Hkeys) as (u & c & s & _ & _ & _ & Hu & Hc & Hs & _).
  set (location := <["offset_celsius" := JFloat f]> data) in *.
  destruct (delivery_loop_sink_raises w system location u c s sensor after e Hu Hc Hs
              before 0 Hbool Hraise) as (Hout & Hlen).
  split; [rewrite main_of_body; reflexivity|].
  rewrite (main_trace_location w system location offset Hsys Hloc Hoff), Hacq.
  unfold observe.delivery_attempts, observe.run_errors.
  rewrite !omap_after_acquisition by ignores_prefix.
  assert (Hshape : exists m ms, before ++ sensor :: after = m :: ms).
  { destruct before; cbn; eauto. }
  destruct Hshape as (m & ms & Heq). rewrite Heq in *.
  rewrite Hout, !omap_app. cbn [omap list_omap]. rewrite app_nil_r.
  split; [exact Hlen|].
  pose proof (delivery_loop_no_run_error w system location (m :: ms) 0) as Hno.
  unfold observe.run_errors in Hno. rewrite Hno. reflexivity.
Qed.

(** Three readings; the second delivery finds no password in the
    credentials: two attempts, one error. *)
Lemma sink_exception_ends_the_batch_witness :
  length (observe.delivery_attempts
            (trace (main.main more_samples.world_second_delivery_raises))) = 2%nat /\
  observe.run_errors (trace (main.main more_samples.world_second_delivery_raises))
    = [KeyError "password"].
Proof.
  destruct (sink_exception_ends_the_batch more_samples.world_second_delivery_raises
              samples.location_ok samples.offset_sample
              [samples.medicion_of samples.raw_28_512]
              [samples.medicion_of samples.raw_28_512]
              (samples.medicion_of samples.raw_30) (KeyError "password"))
    as (_ & Hlen & Herr).
  - vm_compute. reflexivity.
  - vm_compute. reflexivity.
  - vm_compute. reflexivity.
  - intros [|k] Hk; [|cbn in Hk; lia]. exists true. intros p. vm_compute. reflexivity.
  - intros p. vm_compute. reflexivity.
  - split; assumption.
Defined.

(** X18: when the enumeration of the devices itself raises, no temperature
    is read, the exception becomes the one error line of the run, and no
    credentials file is opened. *)
Theorem enumeration_failure_ends_the_run
    (w : world) (location : gmap string jvalue) (e : exn) :
  outcome (location_info.get_location_data w main.config_path) = Return location ->
  get_devices w = Raise e ->
  exists offset,
    location !! "offset_celsius" = Some (JFloat offset) /\
    main.main w =
      (trace (system_info.get_system_info w true)
         ++ [EvConfigFile (w_abspath w main.config_path);
             EvCall_get_medicion offset; EvGetDevices;
             EvLog ERROR (MsgRunError e)],
       Return tt).
Proof.
  intros Hloc Hdev.
  destruct (get_system_info_outcome w true) as (system & Hsys & _).
  destruct (get_location_data_Return w _ _ Hloc) as (data & v & f & _ & Hkeys & _ & _ & ->).
  destruct (location_labels data f Hkeys) as (u & c & s & _ & _ & _ & _ & _ & _ & Hoff).
  exists f. split; [exact Hoff|].
  rewrite (M_eta (main.main w)).
  rewrite (main_trace_location w system _ f Hsys Hloc Hoff), Hdev.
  rewrite get_medicion_enumeration_fails, main_of_body. reflexivity.
Qed.

Lemma enumeration_failure_ends_the_run_witness :
  observe.run_errors
    (trace (main.main (samples.world_of (FileJson samples.config_ok)
                         (Raise (USBError "No backend available"))
                         (fun _ => samples.db_ok))))
  = [USBError "No backend available"].
Proof.
  destruct (enumeration_failure_ends_the_run
              (samples.world_of (FileJson samples.config_ok)
                 (Raise (USBError "No backend available")) (fun _ => samples.db_ok))
              samples.location_ok (USBError "No backend available"))
    as (offset & _ & Hmain).
  - vm_compute. reflexivity.
  - reflexivity.
  - rewrite Hmain. vm_compute. reflexivity.
Defined.

(** ** C5: record k carries the rounded sum of reading k *)

(** What one call of [insert_into_db] passes to [cursor.execute]. *)
Lemma insert_into_db_executes (env : db_connection.db_env) (p : payload) :
  observe.executed_inserts (trace (json_builder.insert_into_db env p)) =
  if tally.reaches_execute env then [p] else [].
Proof.
  destruct env as [ab cf cn].
  unfold tally.reaches_execute.
  unfold_insert_into_db; cbn.
  repeat (case_match; simplify_eq; cbn); reflexivity.
Qed.

(** The records of the calls that get as far as [cursor.execute], when call
    [k] of the run is the one for [payloads !! (k - i)]. *)
Lemma executed_all (w : world) (payloads : list payload) : forall i,
  (forall k, (k < length payloads)%nat -> tally.reaches_execute (db w (i + k)) = true) ->
  map fst (List.filter (fun x => tally.reaches_execute (db w (snd x)))
             (zip payloads (seq i (length payloads)))) = payloads.
Proof.
  induction payloads as [|p ps IH]; intros i Hall; [reflexivity|].
  cbn. pose proof (Hall 0%nat ltac:(cbn; lia)) as H0.
  replace (i + 0)%nat with i in H0 by lia. rewrite H0. cbn. f_equal.
  apply IH. intros k Hk. replace (S i + k)%nat with (i + S k)%nat by lia.
  apply Hall. cbn. lia.
Qed.

Section executes.
Variable w : world.
Variable system : system_info.system.
Variable location : gmap string jvalue.

(** Under a sink that answers with booleans, the values passed to
    [cursor.execute] are the records of the calls that reach it, in order. *)
Lemma delivery_loop_boolean_sink_executes (mediciones : list medicion) :
  forall (i : nat) (payloads : list payload) (outcomes : list bool),
  length outcomes = length mediciones ->
  (forall k b, outcomes !! k = Some b ->
     forall p, outcome (json_builder.insert_into_db (db w (i + k)) p) = Return b) ->
  length payloads = length mediciones ->
  (forall k sensor, mediciones !! k = Some sensor ->
     exists p, payloads !! k = Some p /\
               main.build_payload w system location (i + k) sensor = Return p) ->
  observe.executed_inserts (trace (main.delivery_loop w system location i mediciones)) =
  map fst (List.filter (fun x => tally.reaches_execute (db w (snd x)))
             (zip payloads (seq i (length payloads)))).
Proof.
  induction mediciones as [|sensor rest IH]; intros i payloads outcomes Hlen Hsink Hpl Hbuild.
  - destruct payloads; [reflexivity|discriminate].
  - destruct outcomes as [|b outcomes]; [discriminate|].
    destruct payloads as [|p payloads]; [discriminate|].
    destruct (Hbuild 0%nat sensor eq_refl) as (p' & Hp' & Hp).
    injection Hp' as <-. replace (i + 0)%nat with i in Hp by lia.
    assert (Hb : outcome (json_builder.insert_into_db (db w i) p) = Return b).
    { replace i with (i + 0)%nat at 1 by lia. apply Hsink. reflexivity. }
    rewrite (delivery_loop_cons _ _ _ _ _ _ _ Hp), Hb. cbn [trace fst].
    unfold observe.executed_inserts in *. cbn [omap list_omap]. rewrite omap_app.
    pose proof (insert_into_db_executes (db w i) p) as Hexe.
    unfold observe.executed_inserts in Hexe. rewrite Hexe.
    assert (Hrest :
      omap (fun ev => match ev with EvExecute values => Some values | _ => None end)
        (trace (main.delivery_loop w system location (S i) rest)) =
      map fst (List.filter (fun x => tally.reaches_execute (db w (snd x)))
                 (zip payloads (seq (S i) (length payloads))))).
    { apply (IH (S i) payloads outcomes).
      - cbn in Hlen. lia.
      - intros k b' Hk q. replace (S i + k)%nat with (i + S k)%nat by lia.
        apply Hsink. exact Hk.
      - cbn in Hpl. lia.
      - intros k sensor' Hk. destruct (Hbuild (S k) sensor' Hk) as (q & Hq & Hbq).
        exists q. split; [exact Hq|].
        replace (S i + k)%nat with (i + S k)%nat by lia. exact Hbq. }
    cbn [length seq zip zip_with List.filter snd].
    destruct (tally.reaches_execute (db w i)), b; cbn [app omap list_omap map fst];
      rewrite Hrest; reflexivity.
Qed.

End executes.

(** The temperatures of the records built from the readings of readable
    devices. *)
Lemma temperatures_of_payloads (w : world) system (location : gmap string jvalue)
    (offset : pyfloat.float) :
  forall (devices : list temper_device) (raws : list pyfloat.float)
         (mediciones : list medicion) (payloads : list payload),
  Forall2 (fun device raw => get_temperature device = Return raw) devices raws ->
  Forall2 (observe.reading_of offset) devices mediciones ->
  length payloads = length mediciones ->
  (forall k sensor, mediciones !! k = Some sensor ->
     exists p, payloads !! k = Some p /\
               main.build_payload w system location k sensor = Return p) ->
  map temperatura payloads = map (fun raw => pyfloat.round (pyfloat.add raw offset) 2) raws.
Proof.
  intros devices raws mediciones payloads Hraw Hread Hlen Hbuild.
  apply list_eq. intros k. rewrite !list_lookup_fmap.
  destruct (mediciones !! k) as [sensor|] eqn:Hk.
  - destruct (Hbuild k sensor Hk) as (p & Hp & Hbp). rewrite Hp.
    destruct (Forall2_lookup_r _ _ _ _ _ Hread Hk) as (device & Hd & _ & t & Ht & Htc).
    destruct (Forall2_lookup_l _ _ _ _ _ Hraw Hd) as (raw & Hr & Hdr).
    rewrite Hr. cbn.
    destruct (build_payload_fields w system location k sensor p Hbp)
      as (_ & _ & _ & _ & _ & _ & Htemp & _).
    rewrite Htemp, Htc. congruence.
  - apply lookup_ge_None in Hk.
    pose proof (Forall2_length _ _ _ Hraw) as L1.
    pose proof (Forall2_length _ _ _ Hread) as L2.
    rewrite (proj2 (lookup_ge_None payloads k)) by lia.
    rewrite (proj2 (lookup_ge_None raws k)) by lia. reflexivity.
Qed.

(** C5: in a run whose location is loaded, whose devices can all be read
    (device k giving the raw reading raws[k]) and whose sink answers every
    call with a boolean, one record per device is assembled, logged and
    handed to [insert_into_db], in enumeration order, and the temperature of
    record k is [round(raws[k] + offset, 2)] for the configured offset.  The
    values passed to [cursor.execute] are these same records, for exactly the
    calls that get as far as the execute (all of them when every call does).
    For a finite value the rounding gives the float of a decimal with two
    digits after the point, within half a hundredth of the value rounded; a
    raw 28.512 with offset -6.14 gives 22.37 and not 22.372. *)
Theorem temperature_is_sum_rounded_to_two_decimals
    (w : world) (location : gmap string jvalue) (offset : pyfloat.float)
    (devices : list temper_device) (raws : list pyfloat.float) (outcomes : list bool) :
  outcome (location_info.get_location_data w main.config_path) = Return location ->
  location !! "offset_celsius" = Some (JFloat offset) ->
  get_devices w = Return devices ->
  Forall2 (fun device raw => get_temperature device = Return raw) devices raws ->
  length outcomes = length devices ->
  (forall k b, outcomes !! k = Some b ->
     forall p, outcome (json_builder.insert_into_db (db w k) p) = Return b) ->
  (exists payloads,
     length payloads = length devices /\
     map temperatura payloads
       = map (fun raw => pyfloat.round (pyfloat.add raw offset) 2) raws /\
     observe.logged_payloads (trace (main.main w)) = payloads /\
     observe.delivery_attempts (trace (main.main w)) = payloads /\
     observe.executed_inserts (trace (main.main w))
       = map fst (List.filter (fun x => tally.reaches_execute (db w (snd x)))
                    (zip payloads (seq 0 (length payloads)))) /\
     ((forall k, (k < length devices)%nat -> tally.reaches_execute (db w k) = true) ->
      observe.executed_inserts (trace (main.main w)) = payloads)) /\
  (forall s m e, exists k,
     pyfloat.round (S754_finite s m e) 2 = pyfloat.decimal s k 2 /\
     (0 <= k)%Z /\
     (2 * Z.abs (k * snd (pyfloat.magnitude m e) - fst (pyfloat.magnitude m e) * 100)
        <= snd (pyfloat.magnitude m e))%Z) /\
  pyfloat.round (pyfloat.add (pyfloat.of_decimal 28512 3) (pyfloat.of_decimal (-614) 2)) 2
    = pyfloat.of_decimal 2237 2 /\
  pyfloat.of_decimal 2237 2 <> pyfloat.of_decimal 22372 3.
Proof.
  intros Hloc Hoff Hdev Hraw Hlen Hsink.
  split; [|split; [exact round_two_decimals|split; vm_compute; [reflexivity|discriminate]]].
  destruct (get_system_info_outcome w true) as (system & Hsys & _).
  assert (Hall : Forall observe.readable devices).
  { clear -Hraw. induction Hraw; constructor; [eexists; eassumption|assumption]. }
  destruct (get_medicion_loop_readable offset devices [] Hall) as (mediciones & Heq & Hread).
  assert (Hacq : outcome (temper_reader.get_medicion (get_devices w) offset)
                 = Return mediciones).
  { rewrite Hdev, get_medicion_enumerated, Heq. reflexivity. }
  pose proof (Forall2_length _ _ _ Hread) as Lread.
  destruct (get_location_data_Return w _ _ Hloc) as (data & v & f & _ & Hkeys & _ & _ & ->).
  destruct (location_labels data f Hkeys) as (u & c & s & _ & _ & _ & Hu & Hc & Hs & _).
  set (location := <["offset_celsius" := JFloat f]> data) in *.
  assert (Hlen' : length outcomes = length mediciones) by lia.
  destruct (delivery_loop_boolean_sink w system location u c s mediciones Hu Hc Hs
              0 outcomes Hlen' Hsink)
    as (payloads & Hl & Hbuild & Hout & H1 & H2 & _).
  pose proof (delivery_loop_boolean_sink_executes w system location mediciones
                0 payloads outcomes Hlen' Hsink Hl Hbuild) as H3.
  assert (Hexe : observe.executed_inserts (trace (main.main w))
                 = map fst (List.filter (fun x => tally.reaches_execute (db w (snd x)))
                              (zip payloads (seq 0 (length payloads))))).
  { rewrite (main_trace_location w system location offset Hsys Hloc Hoff), Hacq.
    unfold observe.executed_inserts in *.
    rewrite omap_after_acquisition by ignores_prefix.
    destruct mediciones as [|m ms].
    - destruct payloads; [reflexivity|discriminate].
    - rewrite Hout, app_nil_r. exact H3. }
  exists payloads. split_and!.
  - lia.
  - apply (temperatures_of_payloads w system location offset devices raws mediciones
             payloads Hraw Hread Hl Hbuild).
  - rewrite (main_trace_location w system location offset Hsys Hloc Hoff), Hacq.
    unfold observe.logged_payloads in *.
    rewrite omap_after_acquisition by ignores_prefix.
    destruct mediciones as [|m ms].
    + destruct payloads; [reflexivity|discriminate].
    + rewrite Hout, app_nil_r. exact H1.
  - rewrite (main_trace_location w system location offset Hsys Hloc Hoff), Hacq.
    unfold observe.delivery_attempts in *.
    rewrite omap_after_acquisition by ignores_prefix.
    destruct mediciones as [|m ms].
    + destruct payloads; [reflexivity|discriminate].
    + rewrite Hout, app_nil_r. exact H2.
  - exact Hexe.
  - intros Hreach. rewrite Hexe. apply executed_all.
    intros k Hk. apply Hreach. cbn. lia.
Qed.

(** The sample run with three sensors reading 28.512, 30 and 28.512 and the
    offset -6.14: the three records carry 22.37, 23.86 and 22.37 in that
    order, and the two whose delivery reaches the database are executed with
    22.37. *)
Lemma temperature_is_sum_rounded_to_two_decimals_witness :
  map temperatura
    (observe.delivery_attempts (trace (main.main samples.world_second_delivery_fails)))
    = [pyfloat.of_decimal 2237 2; pyfloat.of_decimal 2386 2; pyfloat.of_decimal 2237 2] /\
  map temperatura
    (observe.logged_payloads (trace (main.main samples.world_second_delivery_fails)))
    = [pyfloat.of_decimal 2237 2; pyfloat.of_decimal 2386 2; pyfloat.of_decimal 2237 2] /\
  length (observe.executed_inserts (trace (main.main samples.world_second_delivery_fails)))
    = 2%nat.
Proof.
  destruct (temperature_is_sum_rounded_to_two_decimals
              samples.world_second_delivery_fails samples.location_ok samples.offset_sample
              [samples.device_reading samples.raw_28_512; samples.device_reading samples.raw_30;
               samples.device_reading samples.raw_28_512]
              [samples.raw_28_512; samples.raw_30; samples.raw_28_512]
              [true; false; true])
    as ((payloads & Hl & Htemp & Hlog & Hdel & Hexe & _) & _).
  - vm_compute. reflexivity.
  - vm_compute. reflexivity.
  - reflexivity.
  - repeat constructor.
  - reflexivity.
  - intros [|[|[|k]]] b Hk p; cbn in Hk; try discriminate; injection Hk as <-;
      vm_compute; reflexivity.
  - rewrite Hdel, Hlog, Hexe, Htemp.
    split; [vm_compute; reflexivity|]. split; [vm_compute; reflexivity|].
    destruct payloads as [|p1 [|p2 [|p3 [|p4 ps]]]]; try discriminate Hl.
    reflexivity.
Defined.
